(** * Statement-to-progress derivation: a shallow embedding of [main.py]

    The development follows the three functions of [src/main.py] that carry
    the derivation logic: [record_statement] (ingestion and the convenience
    fields), [update_progress_from_statement] (the denormalised upsert) and
    [get_progress] (the denormalised read with its fallback fold over the
    stored statements).

    Python values are embedded as a small JSON-like datatype, exceptions as
    an error monad, binary64 arithmetic through the Standard Library's
    [SpecFloat], and the database of the absent [database] module as a
    storage port with an in-memory instance. *)

From Stdlib Require Import ZArith List String Ascii Bool Lia QArith.
From Stdlib Require Import Qabs SpecFloat DecimalString.
Import ListNotations.

Set Warnings "-register-all".
Local Open Scope string_scope.
Local Open Scope Z_scope.

(** ** Python values *)

Module Py.

(** The values that can occur in a statement or progress document: what
    [json.loads] produces, plus the [datetime] the server adds. A [dict] is
    an association list in insertion order, as in Python. *)
Inductive pyval : Type :=
| PNone
| PBool (b : bool)
| PInt (z : Z)
| PFloat (f : spec_float)
| PStr (s : string)
| PList (l : list pyval)
| PDict (d : list (string * pyval))
| PDatetime (t : Z).

Definition pydict : Type := list (string * pyval).

(** The exceptions of the modelled code; all are subclasses of Python's
    [Exception]. [StorageError] stands for whatever the database driver
    raises. *)
Inductive exn : Type :=
| AttributeError
| TypeError
| ValueError
| OverflowError
| KeyError
| StorageError (msg : string).

(** Result of an expression that may raise. *)
Inductive exc (A : Type) : Type :=
| Ok (a : A)
| Raise (e : exn).
Arguments Ok {A} a.
Arguments Raise {A} e.

Definition bind {A B} (m : exc A) (k : A -> exc B) : exc B :=
  match m with
  | Ok a => k a
  | Raise e => Raise e
  end.

Notation "x <- m ;; k" := (bind m (fun x => k))
  (at level 61, m at next level, right associativity).

(** *** Dictionaries *)

Fixpoint dict_lookup (d : pydict) (k : string) : option pyval :=
  match d with
  | [] => None
  | (k', v) :: d' => if String.eqb k' k then Some v else dict_lookup d' k
  end.

(** [d.get(k, default)] on a known dict. *)
Definition dict_get (d : pydict) (k : string) (default : pyval) : pyval :=
  match dict_lookup d k with
  | Some v => v
  | None => default
  end.

(** [k in d]. *)
Definition dict_mem (d : pydict) (k : string) : bool :=
  match dict_lookup d k with
  | Some _ => true
  | None => false
  end.

(** [d[k] = v]: overwrite in place, or append a new key. *)
Fixpoint dict_set (d : pydict) (k : string) (v : pyval) : pydict :=
  match d with
  | [] => [(k, v)]
  | (k', v') :: d' =>
      if String.eqb k' k then (k', v) :: d' else (k', v') :: dict_set d' k v
  end.

(** [d.update(u)]. *)
Definition dict_update (d u : pydict) : pydict :=
  fold_left (fun acc kv => dict_set acc (fst kv) (snd kv)) u d.

(** [d[k]] on a known dict. *)
Definition dict_index (d : pydict) (k : string) : exc pyval :=
  match dict_lookup d k with
  | Some v => Ok v
  | None => Raise KeyError
  end.

(** [x.get(k, default)] on an arbitrary value: only a dict has [get]. *)
Definition py_get (x : pyval) (k : string) (default : pyval) : exc pyval :=
  match x with
  | PDict d => Ok (dict_get d k default)
  | _ => Raise AttributeError
  end.

(** *** Truthiness and type tests *)

Definition float_is_zero (f : spec_float) : bool :=
  match f with
  | S754_zero _ => true
  | _ => false
  end.

(** [bool(x)]. *)
Definition truthy (x : pyval) : bool :=
  match x with
  | PNone => false
  | PBool b => b
  | PInt z => negb (z =? 0)
  | PFloat f => negb (float_is_zero f)
  | PStr s => negb (String.eqb s "")
  | PList l => match l with [] => false | _ => true end
  | PDict d => match d with [] => false | _ => true end
  | PDatetime _ => true
  end.

(** [a or b] where neither operand can raise. *)
Definition py_or (a b : pyval) : pyval := if truthy a then a else b.

(** [a or b] in general: [b] is evaluated, and may raise, only when [a] is
    falsy. *)
Definition py_or_lazy (a b : exc pyval) : exc pyval :=
  x <- a ;; if truthy x then Ok x else b.

(** [isinstance(x, (int, float))]; [bool] is a subclass of [int]. *)
Definition is_int_or_float (x : pyval) : bool :=
  match x with
  | PBool _ | PInt _ | PFloat _ => true
  | _ => false
  end.

(** *** Strings *)

(** [s.split(sep)] for a one-character separator: never empty. *)
Fixpoint split (sep : ascii) (s : string) : list string :=
  match s with
  | EmptyString => [EmptyString]
  | String c s' =>
      if Ascii.eqb c sep then EmptyString :: split sep s'
      else match split sep s' with
           | h :: t => String c h :: t
           | [] => [String c EmptyString]
           end
  end.

(** [s.split("/")[-1]]. *)
Definition split_last (s : string) : string := last (split "/" s) "".

(** [sub in s]. *)
Fixpoint str_contains (sub s : string) : bool :=
  if String.prefix sub s then true
  else match s with
       | EmptyString => false
       | String _ s' => str_contains sub s'
       end.

(** [str(z)] for an integer. *)
Definition str_of_Z (z : Z) : string := NilZero.string_of_int (Z.to_int z).

(** *** Numbers

    A Python [float] is an IEEE 754 binary64 value; [int] is unbounded. *)

Definition prec : Z := 53.
Definition emax : Z := 1024.

Definition f64_mul : spec_float -> spec_float -> spec_float := SFmul prec emax.
Definition f64_div : spec_float -> spec_float -> spec_float := SFdiv prec emax.

(** [float(z)] for an integer that fits (correctly rounded otherwise). *)
Definition f64_of_Z (z : Z) : spec_float := binary_normalize prec emax z 0 false.

(** [x * 100] for [x] an [int] (or [bool]) or a [float]: integer
    multiplication is exact, float multiplication rounds to nearest-even
    after converting 100 to 100.0. *)
Definition py_mul_100 (x : pyval) : exc pyval :=
  match x with
  | PBool b => Ok (PInt (Z.b2z b * 100))
  | PInt z => Ok (PInt (z * 100))
  | PFloat f => Ok (PFloat (f64_mul f (f64_of_Z 100)))
  | _ => Raise TypeError
  end.

(** Nearest integer of [m * 2^e] for [m > 0], ties to the even one. *)
Definition round_half_even (m : positive) (e : Z) : Z :=
  match e with
  | Z0 => Zpos m
  | Zpos p => Zpos m * 2 ^ Zpos p
  | Zneg p =>
      let d := 2 ^ Zpos p in
      let q := Zpos m / d in
      let r := Zpos m mod d in
      match 2 * r ?= d with
      | Lt => q
      | Gt => q + 1
      | Eq => if Z.even q then q else q + 1
      end
  end.

(** [float.__round__()] without [ndigits]: an [int], or an exception for
    the non-finite values. *)
Definition float_round (f : spec_float) : exc Z :=
  match f with
  | S754_zero _ => Ok 0
  | S754_infinity _ => Raise OverflowError
  | S754_nan => Raise ValueError
  | S754_finite s m e => Ok (cond_Zopp s (round_half_even m e))
  end.

(** [int(round(x))] for [x] an [int] or a [float]. *)
Definition py_int_round (x : pyval) : exc Z :=
  match x with
  | PBool b => Ok (Z.b2z b)
  | PInt z => Ok z
  | PFloat f => float_round f
  | _ => Raise TypeError
  end.

(** The rational value of a finite float, for stating rounding bounds. *)
Definition float_value (f : spec_float) : option Q :=
  match f with
  | S754_zero _ => Some (inject_Z 0)
  | S754_finite s m e =>
      Some match e with
           | Zneg p => Qmake (cond_Zopp s (Zpos m)) (2 ^ p)%positive
           | _ => inject_Z (cond_Zopp s (Zpos m * 2 ^ e))
           end
  | _ => None
  end.

(** *** Keys of a Python dict

    Only what [computed.setdefault] needs: lists and dicts are unhashable;
    [bool], [int] and [float] keys compare by numeric value; a NaN key is
    equal to no other key. *)

Definition hashable (x : pyval) : bool :=
  match x with
  | PList _ | PDict _ => false
  | _ => true
  end.

Definition Z_eq_float (z : Z) (f : spec_float) : bool :=
  match f with
  | S754_zero _ => z =? 0
  | S754_finite s m e =>
      match e with
      | Zneg p =>
          (Zpos m mod 2 ^ Zpos p =? 0) && (cond_Zopp s (Zpos m / 2 ^ Zpos p) =? z)
      | _ => cond_Zopp s (Zpos m * 2 ^ e) =? z
      end
  | _ => false
  end.

Definition key_eqb (a b : pyval) : bool :=
  match a, b with
  | PNone, PNone => true
  | PStr s, PStr t => String.eqb s t
  | PDatetime s, PDatetime t => s =? t
  | PBool x, PBool y => Bool.eqb x y
  | PBool x, PInt z | PInt z, PBool x => Z.b2z x =? z
  | PInt x, PInt y => x =? y
  | PBool x, PFloat f | PFloat f, PBool x => Z_eq_float (Z.b2z x) f
  | PInt z, PFloat f | PFloat f, PInt z => Z_eq_float z f
  | PFloat f, PFloat g => SFeqb f g
  | _, _ => false
  end.

End Py.

Import Py.

(** ** The statement schema ([schemas.py]) *)

Module Schemas.

(** [Statement]: the request body after validation. [actor], [verb] and
    [object] are dicts with arbitrary values; [result] and [context] are
    dicts or [None]; [timestamp] is a string or [None]. *)
Record Statement : Type := {
  actor : pydict;
  verb : pydict;
  object : pydict;
  result : option pydict;
  context : option pydict;
  timestamp : option string;
  stored_by : string
}.

Definition opt_dict (o : option pydict) : pyval :=
  match o with
  | Some d => PDict d
  | None => PNone
  end.

Definition opt_str (o : option string) : pyval :=
  match o with
  | Some s => PStr s
  | None => PNone
  end.

(** [statement.model_dump()]: every field is present in the dump. *)
Definition model_dump (s : Statement) : pydict :=
  [ ("actor", PDict (actor s));
    ("verb", PDict (verb s));
    ("object", PDict (object s));
    ("result", opt_dict (result s));
    ("context", opt_dict (context s));
    ("timestamp", opt_str (timestamp s));
    ("stored_by", PStr (stored_by s)) ].

End Schemas.

(** ** The storage port *)

Module Storage.

(** Modelled from the spec: the [database] module ([db], [create_document],
    [get_documents]) is not among the sources. The port has the three
    operations the derivation code calls; each may raise, and a write
    returns the database it leaves behind even when it raises. *)
Class StoragePort (D : Type) : Type := {
  create_document : string -> pydict -> D -> exc string * D;
  get_documents : string -> pydict -> D -> exc (list pydict);
  find_one_and_update :
    string -> pydict -> pydict -> pydict -> D -> exc unit * D
}.

(** *** An in-memory database *)

Definition sf_eqb (f g : spec_float) : bool :=
  match f, g with
  | S754_zero s, S754_zero t => Bool.eqb s t
  | S754_infinity s, S754_infinity t => Bool.eqb s t
  | S754_nan, S754_nan => true
  | S754_finite s m e, S754_finite t n k =>
      Bool.eqb s t && Pos.eqb m n && (e =? k)
  | _, _ => false
  end.

(** Structural equality of stored values. *)
Fixpoint pyval_eqb (a b : pyval) {struct a} : bool :=
  match a, b with
  | PNone, PNone => true
  | PBool x, PBool y => Bool.eqb x y
  | PInt x, PInt y => x =? y
  | PFloat f, PFloat g => sf_eqb f g
  | PStr s, PStr t => String.eqb s t
  | PDatetime s, PDatetime t => s =? t
  | PList l, PList l' =>
      (fix go (l l' : list pyval) {struct l} : bool :=
         match l, l' with
         | [], [] => true
         | x :: xs, y :: ys => pyval_eqb x y && go xs ys
         | _, _ => false
         end) l l'
  | PDict d, PDict d' =>
      (fix go (d d' : list (string * pyval)) {struct d} : bool :=
         match d, d' with
         | [], [] => true
         | (k, x) :: xs, (k', y) :: ys =>
             String.eqb k k' && pyval_eqb x y && go xs ys
         | _, _ => false
         end) d d'
  | _, _ => false
  end.

(** A filter clause [{k: v}] matches a document whose field [k] is [v], or
    is an array with an element [v]; a missing field reads as null. This is
    the database's equality match, which is what it does with a clause
    whose value is a string, a number, a boolean or null; a value that is a
    dict with [$]-keys is a query operator to the database and is outside
    this model. *)
Definition field_matches (fv v : pyval) : bool :=
  pyval_eqb fv v
  || match fv with
     | PList l => existsb (fun x => pyval_eqb x v) l
     | _ => false
     end.

Definition doc_matches (filter doc : pydict) : bool :=
  forallb (fun kv => field_matches (dict_get doc (fst kv) PNone) (snd kv)) filter.

(** The collections by name, and the counter the object ids come from. *)
Record MemDb : Type := {
  collections : list (string * list pydict);
  next_id : Z
}.

Definition empty_db : MemDb := {| collections := []; next_id := 1 |}.

Fixpoint collection (name : string) (cs : list (string * list pydict))
  : list pydict :=
  match cs with
  | [] => []
  | (n, docs) :: cs' => if String.eqb n name then docs else collection name cs'
  end.

Fixpoint set_collection (name : string) (docs : list pydict)
  (cs : list (string * list pydict)) : list (string * list pydict) :=
  match cs with
  | [] => [(name, docs)]
  | (n, old) :: cs' =>
      if String.eqb n name then (n, docs) :: cs'
      else (n, old) :: set_collection name docs cs'
  end.

Definition fresh_id (db : MemDb) : string := "oid" ++ str_of_Z (next_id db).

(** [insert_one]: the document is appended with a fresh [_id]. *)
Definition insert_one (name : string) (doc : pydict) (db : MemDb) : MemDb :=
  {| collections :=
       set_collection name
         (collection name (collections db)
            ++ [dict_set doc "_id" (PStr (fresh_id db))])
         (collections db);
     next_id := next_id db + 1 |}.

(** Apply [f] to the first document that satisfies [p]. *)
Fixpoint update_first (p : pydict -> bool) (f : pydict -> pydict)
  (docs : list pydict) : option (list pydict) :=
  match docs with
  | [] => None
  | d :: ds =>
      if p d then Some (f d :: ds)
      else match update_first p f ds with
           | Some ds' => Some (d :: ds')
           | None => None
           end
  end.

(** [find_one_and_update(filter, {"$set": set, "$setOnInsert": soi},
    upsert=True)]: the first match gets the [$set] fields written over it;
    without a match a document is inserted from the filter's fields, the
    [$set] fields and the [$setOnInsert] fields. This is the effect of a
    command the driver has sent; the driver sends it when it can encode the
    documents, and it refuses an integer beyond 8 bytes with an
    [OverflowError] before anything is written. The general properties of
    the update are therefore stated for the calls [Upsert.plain] describes:
    string identifiers, a timestamp that is a string or null, and a score
    within 8 bytes. *)
Definition upsert (name : string) (filter set soi : pydict) (db : MemDb)
  : MemDb :=
  match update_first (doc_matches filter) (fun d => dict_update d set)
          (collection name (collections db)) with
  | Some docs' =>
      {| collections := set_collection name docs' (collections db);
         next_id := next_id db |}
  | None => insert_one name (dict_update (dict_update filter set) soi) db
  end.

(** Modelled from the spec: [create_document] and [get_documents] of the
    absent [database] module, as thin wrappers of an insert and a filtered
    read, and the driver's [find_one_and_update] with [upsert=True]. *)
#[export] Instance mem_port : StoragePort MemDb := {
  create_document name data db := (Ok (fresh_id db), insert_one name data db);
  get_documents name filter db :=
    Ok (List.filter (doc_matches filter)
            (collection name (collections db)));
  find_one_and_update name filter set soi db :=
    (Ok tt, upsert name filter set soi db)
}.

(** A database whose progress collection is out of reach: statements are
    stored and read as before, every progress upsert raises. *)
Definition progress_down_port : StoragePort MemDb := {|
  create_document name data db := (Ok (fresh_id db), insert_one name data db);
  get_documents name filter db :=
    Ok (List.filter (doc_matches filter) (collection name (collections db)));
  find_one_and_update name filter set soi db :=
    (Raise (StorageError "progress unavailable"), db)
|}.

End Storage.

Import Schemas Storage.

(** ** The derivation engine ([main.py]) *)

Module Main.

(** A request handler runs against the database and may raise: the state
    after the call is returned in both cases. *)
Definition M (D A : Type) : Type := D -> exc A * D.

Definition ret {D A} (a : A) : M D A := fun db => (Ok a, db).

Definition mbind {D A B} (m : M D A) (k : A -> M D B) : M D B :=
  fun db =>
    match m db with
    | (Ok a, db') => k a db'
    | (Raise e, db') => (Raise e, db')
    end.

(** A pure expression evaluated inside a handler. *)
Definition lift {D A} (x : exc A) : M D A := fun db => (x, db).

(** A query: it reads the database and leaves it as it is. *)
Definition query {D A} (q : D -> exc A) : M D A := fun db => (q db, db).

(** [try: m / except Exception: pass]. *)
Definition try_pass {D} (m : M D unit) : M D unit :=
  fun db =>
    match m db with
    | (Ok _, db') => (Ok tt, db')
    | (Raise _, db') => (Ok tt, db')
    end.

Notation "x <~ m ;; k" := (mbind m (fun x => k))
  (at level 61, m at next level, right associativity).

Section Engine.

(** [str] and [repr] of the values whose rendering is not modelled (floats,
    lists, dicts, datetimes) are left to the runtime. *)
Variable py_repr : pyval -> string.

Context {D : Type} {port : StoragePort D}.

(** [str(x)]. *)
Definition py_str (x : pyval) : string :=
  match x with
  | PNone => "None"
  | PBool true => "True"
  | PBool false => "False"
  | PInt z => str_of_Z z
  | PStr s => s
  | _ => py_repr x
  end.

(** *** Convenience fields of [record_statement] (lines 138-145) *)

(** [data.get("actor", {}).get("account", {}).get("name")
     or data.get("actor", {}).get("mbox")
     or data.get("actor", {}).get("openid")]. *)
Definition actor_account (data : pydict) : exc pyval :=
  py_or_lazy
    (account <- py_get (dict_get data "actor" (PDict [])) "account" (PDict []) ;;
     py_get account "name" PNone)
    (py_or_lazy
       (py_get (dict_get data "actor" (PDict [])) "mbox" PNone)
       (py_get (dict_get data "actor" (PDict [])) "openid" PNone)).

(** [data.get("object", {}).get("id")]. *)
Definition activity_id (data : pydict) : exc pyval :=
  py_get (dict_get data "object" (PDict [])) "id" PNone.

(** [activity_id.split("/")[-1] if isinstance(activity_id, str) else None]. *)
Definition course_of_activity (aid : pyval) : pyval :=
  match aid with
  | PStr s => PStr (split_last s)
  | _ => PNone
  end.

(** The body of [record_statement] up to the insertion: the dumped
    statement with [received_at], [_learner_external_id] and [_course_id]. *)
Definition derive_fields (statement : Statement) (now : Z) : exc pydict :=
  let data := model_dump statement in
  let data := dict_set data "received_at" (PDatetime now) in
  account <- actor_account data ;;
  aid <- activity_id data ;;
  let data := dict_set data "_learner_external_id" account in
  let data := dict_set data "_course_id" (course_of_activity aid) in
  Ok data.

(** *** [update_progress_from_statement] (lines 212-247) *)

(** Lines 219-223: the score of the incremental path. *)
Definition score_incremental (result : pyval) : exc pyval :=
  match result with
  | PDict r =>
      match dict_get r "score" PNone with
      | PDict sc =>
          if is_int_or_float (dict_get sc "scaled" PNone) then
            scaled <- dict_index sc "scaled" ;;
            product <- py_mul_100 scaled ;;
            n <- py_int_round product ;;
            Ok (PInt n)
          else Ok PNone
      | _ => Ok PNone
      end
  | _ => Ok PNone
  end.

(** Line 224. *)
Definition success_incremental (result : pyval) : pyval :=
  match result with
  | PDict r =>
      if dict_mem r "success" then PBool (truthy (dict_get r "success" PNone))
      else PNone
  | _ => PNone
  end.

(** Line 225. *)
Definition status_incremental (result : pyval) : pyval :=
  match result with
  | PDict r =>
      if truthy (dict_get r "completion" PNone) then PStr "completed"
      else PStr "in_progress"
  | _ => PStr "in_progress"
  end.

Definition update_progress_from_statement (st : pydict) (now : Z)
  : M D unit :=
  let learner_id := dict_get st "_learner_external_id" PNone in
  let course_id := dict_get st "_course_id" PNone in
  if negb (truthy learner_id) || negb (truthy course_id) then ret tt
  else
    let result := py_or (dict_get st "result" PNone) (PDict []) in
    score <~ lift (score_incremental result) ;;
    let success := success_incremental result in
    let status := status_incremental result in
    let last_ts := dict_get st "timestamp" PNone in
    find_one_and_update "progress"
      [ ("learner_external_id", learner_id); ("course_id", course_id) ]
      [ ("learner_external_id", learner_id);
        ("course_id", course_id);
        ("status", status);
        ("score", score);
        ("success", success);
        ("last_statement_timestamp", last_ts);
        ("updated_at", PDatetime now) ]
      [ ("created_at", PDatetime now) ].

(** *** [record_statement] (lines 132-156) *)

Definition record_statement (statement : Statement) (now : Z)
  : M D pydict :=
  data <~ lift (derive_fields statement now) ;;
  inserted_id <~ create_document "statement" data ;;
  _ <~ try_pass (update_progress_from_statement data now) ;;
  ret [ ("id", PStr inserted_id) ].

(** *** [get_progress] (lines 173-208) *)

(** Lines 190-196: the score of the fallback path. *)
Definition score_fallback (result : pyval) : exc pyval :=
  match result with
  | PDict r =>
      match dict_get r "score" PNone with
      | PDict sc =>
          let scaled := dict_get sc "scaled" PNone in
          if is_int_or_float scaled then
            product <- py_mul_100 scaled ;;
            n <- py_int_round product ;;
            Ok (PInt n)
          else Ok PNone
      | _ => Ok PNone
      end
  | _ => Ok PNone
  end.

(** Lines 185-187. *)
Definition course_id_fallback (st : pydict) : exc pyval :=
  course_id <- py_or_lazy (Ok (dict_get st "_course_id" PNone))
                 (py_get (dict_get st "object" (PDict [])) "id" PNone) ;;
  match course_id with
  | PStr s => if str_contains "/" s then Ok (PStr (split_last s)) else Ok course_id
  | _ => Ok course_id
  end.

(** Line 188. *)
Definition verb_fallback (st : pydict) : exc pyval :=
  py_or_lazy
    (display <- py_get (dict_get st "verb" (PDict [])) "display" (PDict []) ;;
     py_get display "en-US" PNone)
    (py_get (dict_get st "verb" (PDict [])) "id" PNone).

(** [result.get("completion") or (verb and "completed" in str(verb))], as a
    condition. *)
Definition completed_fallback (r : pydict) (verb : pyval) : bool :=
  truthy (dict_get r "completion" PNone)
  || (truthy verb && str_contains "completed" (py_str verb)).

(** The [computed] dict: course id to record, in insertion order. *)
Definition computed_t : Type := list (pyval * pydict).

Fixpoint computed_lookup (c : computed_t) (k : pyval) : option pydict :=
  match c with
  | [] => None
  | (k', r) :: c' => if key_eqb k' k then Some r else computed_lookup c' k
  end.

Fixpoint computed_store (c : computed_t) (k : pyval) (r : pydict) : computed_t :=
  match c with
  | [] => [(k, r)]
  | (k', r') :: c' =>
      if key_eqb k' k then (k', r) :: c' else (k', r') :: computed_store c' k r
  end.

(** [computed.setdefault(k, default)]: the record under [k], which is
    [default] when [k] is new. The loop then mutates that record in place;
    [fallback_step] stores the mutated record back under [k], which
    overwrites the entry [setdefault] returned or appends the new one. *)
Definition setdefault (c : computed_t) (k : pyval) (default : pydict)
  : exc pydict :=
  if hashable k then
    match computed_lookup c k with
    | Some r => Ok r
    | None => Ok default
    end
  else Raise TypeError.

(** Lines 199-206: the writes to [rec]. *)
Definition merge_fallback (rec st : pydict) (result score verb : pyval)
  : pydict :=
  let rec := dict_set rec "last_statement_timestamp"
               (py_or (dict_get st "timestamp" PNone)
                      (dict_get rec "last_statement_timestamp" PNone)) in
  let rec := match score with
             | PNone => rec
             | _ => dict_set rec "score" score
             end in
  match result with
  | PDict r =>
      let rec := if dict_mem r "success"
                 then dict_set rec "success"
                        (PBool (truthy (dict_get r "success" PNone)))
                 else rec in
      if completed_fallback r verb then dict_set rec "status" (PStr "completed")
      else rec
  | _ => rec
  end.

(** One iteration of the loop of lines 184-206. *)
Definition fallback_step (computed : computed_t) (st : pydict)
  : exc computed_t :=
  course_id <- course_id_fallback st ;;
  verb <- verb_fallback st ;;
  let result := py_or (dict_get st "result" PNone) (PDict []) in
  score <- score_fallback result ;;
  rec <- setdefault computed course_id
           [ ("course_id", course_id);
             ("status", PStr "in_progress");
             ("score", PNone);
             ("success", PNone);
             ("last_statement_timestamp", dict_get st "timestamp" PNone) ] ;;
  Ok (computed_store computed course_id (merge_fallback rec st result score verb)).

(** Lines 183-207: the fold over the learner's statements, and
    [list(computed.values())]. *)
Fixpoint fallback_loop (computed : computed_t) (statements : list pydict)
  : exc computed_t :=
  match statements with
  | [] => Ok computed
  | st :: rest =>
      computed <- fallback_step computed st ;;
      fallback_loop computed rest
  end.

Definition compute_from_statements (statements : list pydict)
  : exc (list pydict) :=
  computed <- fallback_loop [] statements ;;
  Ok (map snd computed).

Definition get_progress (learner_external_id : string) : M D pydict :=
  progress_items <~ query (get_documents "progress"
                      [ ("learner_external_id", PStr learner_external_id) ]) ;;
  match progress_items with
  | _ :: _ =>
      let items :=
        map (fun p => dict_set p "_id" (PStr (py_str (dict_get p "_id" PNone))))
            progress_items in
      ret [ ("learner_external_id", PStr learner_external_id);
            ("items", PList (map PDict items)) ]
  | [] =>
      statements <~ query (get_documents "statement"
                      [ ("_learner_external_id", PStr learner_external_id) ]) ;;
      items <~ lift (compute_from_statements statements) ;;
      ret [ ("learner_external_id", PStr learner_external_id);
            ("items", PList (map PDict items)) ]
  end.

End Engine.

End Main.


(** ** Vocabulary of the properties *)

Module Derivation.
Import Main.

(** The [(status, score, success)] of a progress record. *)
Definition triple (rec : pydict) : pyval * pyval * pyval :=
  (dict_get rec "status" PNone, dict_get rec "score" PNone,
   dict_get rec "success" PNone).

(** The progress collection of the in-memory database. *)
Definition progress_of (db : MemDb) : list pydict :=
  collection "progress" (collections db).

(** The statements [get_progress] replays for a learner. *)
Definition statements_for (learner : string) (db : MemDb) : exc (list pydict) :=
  get_documents "statement" [ ("_learner_external_id", PStr learner) ] db.

(** The triples the fallback computes from the learner's stored
    statements. *)
Definition fallback_triples (py_repr : pyval -> string) (learner : string)
  (db : MemDb) : exc (list (pyval * pyval * pyval)) :=
  statements <- statements_for learner db ;;
  items <- compute_from_statements py_repr statements ;;
  Ok (map triple items).

(** The records a [get_progress] response lists under [items]. *)
Definition response_items (response : exc pydict) : exc (list pydict) :=
  r <- response ;;
  match dict_get r "items" PNone with
  | PList items =>
      Ok (map (fun it => match it with PDict d => d | _ => [] end) items)
  | _ => Raise TypeError
  end.

(** A projection of every record of a response. *)
Definition response_map {A} (f : pydict -> A) (response : exc pydict)
  : exc (list A) :=
  items <- response_items response ;; Ok (map f items).

(** Ingest a list of statements, one request after the other; the clock
    advances by one between requests. *)
Fixpoint ingest {D} {port : StoragePort D} (evs : list Statement) (now : Z)
  (db : D) : D :=
  match evs with
  | [] => db
  | ev :: rest => ingest rest (now + 1) (snd (record_statement ev now db))
  end.

(** The [score.scaled] field of a result: present when the result and its
    [score] are dicts and the key is there. *)
Definition scaled_field (result : pyval) : option pyval :=
  match result with
  | PDict r =>
      match dict_get r "score" PNone with
      | PDict sc => dict_lookup sc "scaled"
      | _ => None
      end
  | _ => None
  end.

(** The value of the Python expression [v * 100] as a rational, when [v] is
    a number and the product is finite. *)
Definition product_value (v : pyval) : option Q :=
  match py_mul_100 v with
  | Ok (PInt z) => Some (inject_Z z)
  | Ok (PFloat f) => float_value f
  | _ => None
  end.

(** The product [scaled * 100] is not an infinity or a NaN. *)
Definition product_finite (result : pyval) : bool :=
  match scaled_field result with
  | Some (PFloat f) =>
      match float_value (f64_mul f (f64_of_Z 100)) with
      | Some _ => true
      | None => false
      end
  | _ => true
  end.

(** [n] is an integer nearest to the rational [p]. *)
Definition nearest (n : Z) (p : Q) : Prop := (Qabs (inject_Z n - p) <= 1 # 2)%Q.

End Derivation.

(** ** Events used in the examples *)

Module Scenario.
Import Main Derivation.

(** The literal [0.6], the binary64 nearest to 6/10. *)
Definition f_0_6 : spec_float := S754_finite false 5404319552844595 (-53).
(** The literal [0.85]. *)
Definition f_0_85 : spec_float := S754_finite false 7656119366529843 (-53).
(** The literal [1.0]. *)
Definition f_1_0 : spec_float := S754_finite false 4503599627370496 (-52).
(** The literal [1e308]. *)
Definition f_1e308 : spec_float := S754_finite false 5010420900022432 971.

Definition actor_u1 : pydict := [ ("account", PDict [ ("name", PStr "u1") ]) ].

Definition course_ethics : pydict :=
  [ ("id", PStr "https://lms.example/courses/c-ethics-101") ].

Definition verb_of (name : string) : pydict :=
  [ ("id", PStr ("http://adlnet.gov/expapi/verbs/" ++ name));
    ("display", PDict [ ("en-US", PStr name) ]) ].

(** A statement of learner u1 about the ethics course. *)
Definition event (v : string) (r : option pydict) : Statement :=
  {| actor := actor_u1; verb := verb_of v; object := course_ethics;
     result := r; context := None; timestamp := None; stored_by := "api" |}.

(** The three events of the end-to-end scenario. *)
Definition ev1 : Statement := event "attempted" None.
Definition ev2 : Statement :=
  event "attempted" (Some [ ("score", PDict [ ("scaled", PFloat f_0_6) ]) ]).
Definition ev3 : Statement :=
  event "completed"
    (Some [ ("completion", PBool true); ("success", PBool true) ]).

(** The data [record_statement] stores for [ev2] at time 0. *)
Definition data_ev2 : pydict :=
  [ ("actor", PDict actor_u1);
    ("verb", PDict (verb_of "attempted"));
    ("object", PDict course_ethics);
    ("result", PDict [ ("score", PDict [ ("scaled", PFloat f_0_6) ]) ]);
    ("context", PNone);
    ("timestamp", PNone);
    ("stored_by", PStr "api");
    ("received_at", PDatetime 0);
    ("_learner_external_id", PStr "u1");
    ("_course_id", PStr "c-ethics-101") ].

(** An attempt that carries a score, a success flag and a timestamp. *)
Definition ev_scored : Statement :=
  {| actor := actor_u1; verb := verb_of "attempted"; object := course_ethics;
     result := Some [ ("score", PDict [ ("scaled", PFloat f_0_6) ]);
                      ("success", PBool true) ];
     context := None; timestamp := Some "2024-05-01T10:00:00Z";
     stored_by := "api" |}.

(** An event whose verb display is "completed" and that has no result. *)
Definition ev_completed_verb : Statement := event "completed" None.

(** An actor whose [account] is a string, not an object. *)
Definition ev_account_string : Statement :=
  {| actor := [ ("account", PStr "u1") ];
     verb := verb_of "attempted"; object := course_ethics;
     result := None; context := None; timestamp := None; stored_by := "api" |}.

(** An event without an activity id, whose verb [display] is a string. *)
Definition ev_display_string : Statement :=
  {| actor := actor_u1; verb := [ ("display", PStr "completed") ];
     object := [ ("objectType", PStr "Activity") ];
     result := None; context := None; timestamp := None; stored_by := "api" |}.

(** An event whose object has no [id]. *)
Definition ev_no_course : Statement :=
  {| actor := actor_u1; verb := verb_of "attempted";
     object := [ ("objectType", PStr "Activity") ];
     result := None; context := None; timestamp := None; stored_by := "api" |}.

(** An actor whose account name is the empty string, with a mailbox. *)
Definition ev_empty_name : Statement :=
  {| actor := [ ("account", PDict [ ("name", PStr "") ]);
                ("mbox", PStr "mailto:u2@example.com") ];
     verb := verb_of "attempted"; object := course_ethics;
     result := None; context := None; timestamp := None; stored_by := "api" |}.

(** A stored statement with a learner and no course. *)
Definition st_no_course : pydict :=
  [ ("_learner_external_id", PStr "u1"); ("_course_id", PNone);
    ("result", PDict [ ("completion", PBool true) ]) ].

(** A result whose only content is [score.scaled]. *)
Definition result_with_scaled (v : pyval) : pyval :=
  PDict [ ("score", PDict [ ("scaled", v) ]) ].

(** An attempt of learner u1 whose scaled score is the JSON number
    [1e308]. *)
Definition ev_overflow : Statement :=
  event "attempted" (Some [ ("score", PDict [ ("scaled", PFloat f_1e308) ]) ]).

End Scenario.

Import Main Derivation Scenario.

(** ** The course catalog and the statement listing ([main.py]) *)

Module Catalog.
Import Main.

(** The fields [CourseCreate] (lines 60-67) and [Course] ([schemas.py])
    both declare. *)
Record CourseCreate : Type := {
  course_id : string;
  title : string;
  description : option string;
  duration_minutes : option Z;
  level : option string;
  tags : list string;
  published : bool
}.

(** The constructor call of [CourseSchema] on the fields of a course:
    [Course] differs from [CourseCreate] by [duration_minutes: ge=0], and a
    [ValidationError] is a [ValueError]. *)
Definition CourseSchema (c : CourseCreate) : exc CourseCreate :=
  match duration_minutes c with
  | Some n => if n <? 0 then Raise ValueError else Ok c
  | None => Ok c
  end.

Definition opt_int (o : option Z) : pyval :=
  match o with
  | Some n => PInt n
  | None => PNone
  end.

(** The document of a validated course. *)
Definition course_dump (c : CourseCreate) : pydict :=
  [ ("course_id", PStr (course_id c));
    ("title", PStr (title c));
    ("description", opt_str (description c));
    ("duration_minutes", opt_int (duration_minutes c));
    ("level", opt_str (level c));
    ("tags", PList (map PStr (tags c)));
    ("published", PBool (published c)) ].

(** The default catalog of [list_courses] (lines 74-111). *)
Definition seed : list CourseCreate :=
  [ {| course_id := "c-ethics-101";
       title := "Ethics Fundamentals";
       description := Some "Core principles of ethical decision-making in the workplace.";
       duration_minutes := Some 45;
       level := Some "Beginner";
       tags := [ "ethics"; "culture" ];
       published := true |};
    {| course_id := "c-privacy-gdpr";
       title := "Data Privacy & GDPR";
       description := Some "Understand data protection, privacy by design, and GDPR basics.";
       duration_minutes := Some 60;
       level := Some "Intermediate";
       tags := [ "privacy"; "gdpr" ];
       published := true |};
    {| course_id := "c-anti-bribery";
       title := "Anti-Bribery & Corruption";
       description := Some "Recognize risk, report concerns, and comply with ABAC policies.";
       duration_minutes := Some 40;
       level := Some "Intermediate";
       tags := [ "abac"; "risk" ];
       published := true |};
    {| course_id := "c-code-of-conduct";
       title := "Code of Conduct";
       description := Some "Company standards for professional behavior and integrity.";
       duration_minutes := Some 35;
       level := Some "All Levels";
       tags := [ "conduct" ];
       published := true |} ].

(** Modelled from the spec: [get_documents] called with its [limit] keyword
    (line 164); the [database] module is not among the sources. *)
Class LimitedRead (D : Type) : Type := {
  get_documents_limit : string -> pydict -> Z -> D -> exc (list pydict)
}.

(** Modelled from the spec: the limited read on the in-memory database
    returns the first [limit] matching documents, in insertion order. *)
#[export] Instance mem_limited_read : LimitedRead MemDb := {
  get_documents_limit name filter limit db :=
    Ok (firstn (Z.to_nat limit)
          (List.filter (doc_matches filter) (collection name (collections db))))
}.

Section Handlers.

Variable py_repr : pyval -> string.

Context {D : Type} {port : StoragePort D} {limited : LimitedRead D}.

(** [it["_id"] = str(it.get("_id"))]. *)
Definition stringify_id (it : pydict) : pydict :=
  dict_set it "_id" (PStr (py_str py_repr (dict_get it "_id" PNone))).


(** Lines 113-116: one seed, its failure ignored. *)
Definition seed_one (c : CourseCreate) : M D unit :=
  try_pass (course <~ lift (CourseSchema c) ;;
            _ <~ create_document "course" (course_dump course) ;;
            ret tt).

(** Lines 112-116: the loop over the seeds. *)
Fixpoint seed_all (cs : list CourseCreate) : M D unit :=
  match cs with
  | [] => ret tt
  | c :: rest => _ <~ seed_one c ;; seed_all rest
  end.

(** Lines 69-121. *)
Definition list_courses : M D (list pydict) :=
  items <~ query (get_documents "course" []) ;;
  items <~ match items with
           | [] => _ <~ seed_all seed ;; query (get_documents "course" [])
           | _ :: _ => ret items
           end ;;
  ret (map stringify_id items).

(** Lines 158-167. *)
Definition get_statements (user_id : option string) (limit : Z)
  : M D (list pydict) :=
  let filt :=
    match user_id with
    | Some u =>
        if truthy (PStr u) then [ ("_learner_external_id", PStr u) ] else []
    | None => []
    end in
  items <~ query (get_documents_limit "statement" filt limit) ;;
  ret (map stringify_id items).

End Handlers.


(** The course ids of the default catalog. *)
Definition seed_ids : list pyval :=
  [ PStr "c-ethics-101"; PStr "c-privacy-gdpr"; PStr "c-anti-bribery";
    PStr "c-code-of-conduct" ].

(** A course of the examples. *)
Definition course_whistleblowing : CourseCreate :=
  {| course_id := "c-whistleblowing";
     title := "Speaking Up";
     description := None;
     duration_minutes := Some 20;
     level := None;
     tags := [];
     published := true |}.

End Catalog.

(** ** Vocabulary for the fallback fold *)

Module Replay.
Import Main.

Section Replay.

Variable py_repr : pyval -> string.

(** [st.get("result") or {}]. *)
Definition result_of (st : pydict) : pyval :=
  py_or (dict_get st "result" PNone) (PDict []).

(** The score a statement carries, [None] when it carries none. *)
Definition st_score (st : pydict) : pyval :=
  match score_fallback (result_of st) with
  | Ok s => s
  | Raise _ => PNone
  end.

Definition st_has_score (st : pydict) : bool :=
  match st_score st with
  | PNone => false
  | _ => true
  end.

(** The verb text the fallback reads from a statement. *)
Definition st_verb (st : pydict) : pyval :=
  match verb_fallback st with
  | Ok v => v
  | Raise _ => PNone
  end.

(** The statement's result has a [success] key. *)
Definition st_has_success (st : pydict) : bool :=
  match result_of st with
  | PDict r => dict_mem r "success"
  | _ => false
  end.

Definition st_success (st : pydict) : pyval :=
  match result_of st with
  | PDict r => PBool (truthy (dict_get r "success" PNone))
  | _ => PNone
  end.

(** The statement signals completion: its result is a dict and either
    [completion] is truthy or the verb text contains "completed". *)
Definition st_completes (st : pydict) : bool :=
  match result_of st with
  | PDict r => completed_fallback py_repr r (st_verb st)
  | _ => false
  end.

Definition st_timestamp (st : pydict) : pyval := dict_get st "timestamp" PNone.

Definition st_has_timestamp (st : pydict) : bool := truthy (st_timestamp st).

(** The record [setdefault] creates for a new course id (line 197). *)
Definition default_record (k : pyval) (st : pydict) : pydict :=
  [ ("course_id", k);
    ("status", PStr "in_progress");
    ("score", PNone);
    ("success", PNone);
    ("last_statement_timestamp", dict_get st "timestamp" PNone) ].

(** The record of a course after one more statement of its group: the
    writes of lines 199-206 with the statement's own result, score and
    verb. *)
Definition step_record (rec st : pydict) : pydict :=
  merge_fallback py_repr rec st (result_of st) (st_score st) (st_verb st).

(** The record of a course after the statements [g] of its group, one
    after the other, starting from the record [o] (none yet: the first
    statement creates the default record). *)
Definition replay (k : pyval) (o : option pydict) (g : list pydict)
  : option pydict :=
  fold_left
    (fun o st =>
       Some (step_record (match o with
                          | Some r => r
                          | None => default_record k st
                          end) st))
    g o.

(** The statement belongs to the group of course [k]. *)
Definition in_group (k : pyval) (st : pydict) : bool :=
  match course_id_fallback st with
  | Ok k' => key_eqb k' k
  | Raise _ => false
  end.

(** [f] of the last statement of [g] that satisfies [p]; [default] when
    there is none. *)
Definition last_where (p : pydict -> bool) (f : pydict -> pyval)
  (default : pyval) (g : list pydict) : pyval :=
  match find p (rev g) with
  | Some st => f st
  | None => default
  end.

(** The record of course [k] in closed form, from the statements [g] of its
    group in arrival order: completed when some statement completes; score
    and success of the last statement that carries one; the last truthy
    timestamp, or the first statement's own when none is truthy. *)
Definition summary (k : pyval) (g : list pydict) : option pydict :=
  match g with
  | [] => None
  | first :: _ =>
      Some [ ("course_id", k);
             ("status", if existsb st_completes g then PStr "completed"
                        else PStr "in_progress");
             ("score", last_where st_has_score st_score PNone g);
             ("success", last_where st_has_success st_success PNone g);
             ("last_statement_timestamp",
              last_where st_has_timestamp st_timestamp (st_timestamp first) g) ]
  end.

End Replay.

(** A course id that is a string or [None], as ingestion stores it. *)
Definition simple_key (k : pyval) : bool :=
  match k with
  | PNone | PStr _ => true
  | _ => false
  end.

(** The shape of a record the fallback returns. *)
Definition fallback_record_shape (rec : pydict) : Prop :=
  map fst rec
  = [ "course_id"; "status"; "score"; "success"; "last_statement_timestamp" ]
  /\ (dict_get rec "status" PNone = PStr "in_progress"
      \/ dict_get rec "status" PNone = PStr "completed")
  /\ (dict_get rec "score" PNone = PNone
      \/ exists n, dict_get rec "score" PNone = PInt n)
  /\ (dict_get rec "success" PNone = PNone
      \/ exists b, dict_get rec "success" PNone = PBool b).

(** No earlier key of the list equals a later one as a dict key. *)
Fixpoint distinct_keys (ks : list pyval) : Prop :=
  match ks with
  | [] => True
  | k :: rest => Forall (fun k' => key_eqb k k' = false) rest /\ distinct_keys rest
  end.

(** Every entry of [computed] holds a well-shaped record whose [course_id]
    field is the key it is stored under. *)
Definition computed_ok (c : computed_t) : Prop :=
  Forall (fun kr => fallback_record_shape (snd kr)
                    /\ dict_get (snd kr) "course_id" PNone = fst kr) c.

(** A rendering for the examples; none of them renders such a value. *)
Definition no_repr : pyval -> string := fun _ => "".

(** A history over two courses, and the records the fallback computes. *)
Definition history_two_courses : list pydict :=
  [ [ ("_course_id", PStr "c-b"); ("timestamp", PStr "t1") ];
    [ ("_course_id", PStr "c-a");
      ("result", PDict [ ("completion", PBool true) ]) ];
    [ ("_course_id", PStr "c-b");
      ("result", PDict [ ("success", PBool false);
                         ("score", PDict [ ("scaled", PInt 1) ]) ]) ];
    [ ("_course_id", PStr "c-a"); ("timestamp", PStr "t4") ] ].

Definition record_c_b : pydict :=
  [ ("course_id", PStr "c-b"); ("status", PStr "in_progress");
    ("score", PInt 100); ("success", PBool false);
    ("last_statement_timestamp", PStr "t1") ].

Definition record_c_a : pydict :=
  [ ("course_id", PStr "c-a"); ("status", PStr "completed");
    ("score", PNone); ("success", PNone);
    ("last_statement_timestamp", PStr "t4") ].

(** A stored statement that completes its course, and the record the
    fallback computes from it alone. *)
Definition st_completing : pydict :=
  [ ("_course_id", PStr "c-a");
    ("result", PDict [ ("completion", PBool true) ]) ].

Definition record_completing : pydict :=
  [ ("course_id", PStr "c-a"); ("status", PStr "completed");
    ("score", PNone); ("success", PNone);
    ("last_statement_timestamp", PNone) ].

(** A stored statement whose activity id is a list: not hashable. *)
Definition st_unhashable : pydict :=
  [ ("_course_id", PNone); ("object", PDict [ ("id", PList [ PInt 1 ]) ]) ].

End Replay.

(** ** Vocabulary for the denormalised upsert *)

Module Upsert.
Import Main.

(** The statement has a truthy learner id and a truthy course id (the guard
    of line 215 lets it through). *)
Definition identifiable (st : pydict) : bool :=
  truthy (dict_get st "_learner_external_id" PNone)
  && truthy (dict_get st "_course_id" PNone).

(** An integer the driver can encode: a BSON integer has at most 8
    bytes. *)
Definition within_8_bytes (n : Z) : bool :=
  (- 2 ^ 63 <=? n) && (n <? 2 ^ 63).

Definition is_string (x : pyval) : bool :=
  match x with
  | PStr _ => true
  | _ => false
  end.

Definition string_or_none (x : pyval) : bool :=
  match x with
  | PStr _ | PNone => true
  | _ => false
  end.

(** A derived score the driver can encode: no score, or an integer within
    8 bytes. *)
Definition storable_score (score : pyval) : bool :=
  match score with
  | PNone => true
  | PInt n => within_8_bytes n
  | _ => false
  end.

(** The calls of line 231 that the database serves as an equality match
    and a write: the learner id and the course id are strings (as the
    [Progress] schema has them; a dict would be read as a query operator),
    the timestamp is a string or null (as the [Statement] schema has it),
    and the driver can encode the score. A string of the model is a
    sequence of bytes, the UTF-8 encoding of the text, which is what the
    driver stores. *)
Definition plain (st : pydict) (score : pyval) : bool :=
  is_string (dict_get st "_learner_external_id" PNone)
  && is_string (dict_get st "_course_id" PNone)
  && string_or_none (dict_get st "timestamp" PNone)
  && storable_score score.

(** The filter of the upsert (line 232). *)
Definition pair_filter (st : pydict) : pydict :=
  [ ("learner_external_id", dict_get st "_learner_external_id" PNone);
    ("course_id", dict_get st "_course_id" PNone) ].

(** The [$set] document of the upsert (lines 234-242), for a derived
    score. *)
Definition set_document (st : pydict) (now : Z) (score : pyval) : pydict :=
  let result := py_or (dict_get st "result" PNone) (PDict []) in
  [ ("learner_external_id", dict_get st "_learner_external_id" PNone);
    ("course_id", dict_get st "_course_id" PNone);
    ("status", status_incremental result);
    ("score", score);
    ("success", success_incremental result);
    ("last_statement_timestamp", dict_get st "timestamp" PNone);
    ("updated_at", PDatetime now) ].

(** The record inserted when the pair has none: the filter's fields, the
    [$set] fields, [created_at] from [$setOnInsert], and a fresh [_id]. *)
Definition inserted_record (st : pydict) (now : Z) (score : pyval)
  (db : MemDb) : pydict :=
  dict_set
    (dict_update (dict_update (pair_filter st) (set_document st now score))
       [ ("created_at", PDatetime now) ])
    "_id" (PStr (fresh_id db)).

(** The progress records of the statement's pair, and the others. *)
Definition of_pair (st : pydict) (docs : list pydict) : list pydict :=
  List.filter (doc_matches (pair_filter st)) docs.

Definition of_others (st : pydict) (docs : list pydict) : list pydict :=
  List.filter (fun d => negb (doc_matches (pair_filter st) d)) docs.

(** The database after the update for [st] at time [now]. *)
Definition updated (st : pydict) (now : Z) (db : MemDb) : MemDb :=
  snd (update_progress_from_statement st now db).

End Upsert.

(** * Lemmas *)

(** ** The runtime model on small inputs *)

Example split_last_examples :
  split_last "https://lms.example/courses/c-ethics-101" = "c-ethics-101"
  /\ split_last "c-ethics-101" = "c-ethics-101"
  /\ split_last "courses/" = ""
  /\ split "/" "a//b" = [ "a"; ""; "b" ].
Proof. repeat split. Qed.

Example str_contains_examples :
  str_contains "completed" "http://adlnet.gov/expapi/verbs/completed" = true
  /\ str_contains "completed" "Completed" = false
  /\ str_contains "completed" "attempted" = false
  /\ str_contains "/" "c-ethics-101" = false.
Proof. repeat split. Qed.

Example truthy_examples :
  truthy (PStr "") = false
  /\ truthy PNone = false
  /\ truthy (PInt 0) = false
  /\ truthy (PFloat (S754_zero true)) = false
  /\ truthy (PFloat S754_nan) = true
  /\ truthy (PDict []) = false
  /\ truthy (PStr "u1") = true.
Proof. repeat split. Qed.

Example key_eqb_examples :
  key_eqb (PInt 1) (PBool true) = true
  /\ key_eqb (PInt 1) (PFloat (S754_finite false 4503599627370496 (-52))) = true
  /\ key_eqb (PFloat S754_nan) (PFloat S754_nan) = false
  /\ key_eqb (PStr "1") (PInt 1) = false
  /\ key_eqb PNone PNone = true.
Proof. repeat split. Qed.

(** The learner id is the account name, else the mailbox, else the OpenID. *)
Example actor_account_examples :
  actor_account [ ("actor", PDict [ ("account", PDict [ ("name", PStr "u1") ]);
                                    ("mbox", PStr "mailto:a@b.c") ]) ]
  = Ok (PStr "u1")
  /\ actor_account [ ("actor", PDict [ ("mbox", PStr "mailto:a@b.c");
                                       ("openid", PStr "https://id/u1") ]) ]
     = Ok (PStr "mailto:a@b.c")
  /\ actor_account [ ("actor", PDict [ ("openid", PStr "https://id/u1") ]) ]
     = Ok (PStr "https://id/u1")
  /\ actor_account [ ("actor", PDict []) ] = Ok PNone.
Proof. repeat split. Qed.

(** The fallback lists one record per course, in the order the courses are
    first seen. *)
Example fallback_two_courses (py_repr : pyval -> string) :
  compute_from_statements py_repr
    [ [ ("_course_id", PStr "c-b"); ("timestamp", PStr "t1") ];
      [ ("_course_id", PStr "c-a");
        ("result", PDict [ ("completion", PBool true) ]) ];
      [ ("object", PDict [ ("id", PStr "https://lms.example/courses/c-b") ]);
        ("result", PDict [ ("success", PBool false) ]) ] ]
  = Ok [ [ ("course_id", PStr "c-b"); ("status", PStr "in_progress");
           ("score", PNone); ("success", PBool false);
           ("last_statement_timestamp", PStr "t1") ];
         [ ("course_id", PStr "c-a"); ("status", PStr "completed");
           ("score", PNone); ("success", PNone);
           ("last_statement_timestamp", PNone) ] ].
Proof. vm_compute. reflexivity. Qed.

(** ** Rounding *)

Lemma round_half_even_neg_bound (m p : positive) :
  2 * Z.abs (round_half_even m (Zneg p) * 2 ^ Zpos p - Zpos m) <= 2 ^ Zpos p.
Proof.
  unfold round_half_even.
  assert (Hd : 0 < 2 ^ Zpos p) by (apply Z.pow_pos_nonneg; lia).
  pose proof (Z.div_mod (Zpos m) (2 ^ Zpos p) ltac:(lia)) as Hdm.
  pose proof (Z.mod_pos_bound (Zpos m) (2 ^ Zpos p) Hd) as Hr.
  set (d := 2 ^ Zpos p) in *.
  set (q := Zpos m / d) in *.
  set (r := Zpos m mod d) in *.
  destruct (2 * r ?= d) eqn:Hc.
  - apply Z.compare_eq in Hc.
    destruct (Z.even q); nia.
  - rewrite Z.compare_lt_iff in Hc. nia.
  - rewrite Z.compare_gt_iff in Hc. nia.
Qed.

Lemma float_round_nearest (f : spec_float) (n : Z) (p : Q) :
  float_round f = Ok n -> float_value f = Some p -> nearest n p.
Proof.
  unfold nearest.
  destruct f as [s | s | | s m e]; simpl; try discriminate.
  - intros Hn Hp. injection Hn as <-. injection Hp as <-. discriminate.
  - intros Hn Hp. injection Hn as <-. injection Hp as <-.
    destruct e as [| e | e].
    + unfold Qle, Qabs, Qminus, Qplus, Qopp, inject_Z. simpl Qnum. simpl Qden.
      unfold round_half_even.
      destruct s; unfold cond_Zopp; lia.
    + unfold Qle, Qabs, Qminus, Qplus, Qopp, inject_Z. simpl Qnum. simpl Qden.
      unfold round_half_even.
      destruct s; unfold cond_Zopp; lia.
    + pose proof (round_half_even_neg_bound m e) as Hb.
      set (n := round_half_even m (Zneg e)) in *.
      unfold Qle, Qabs, Qminus, Qplus, Qopp, inject_Z. simpl Qnum. simpl Qden.
      rewrite Pos2Z.inj_pow.
      destruct s; unfold cond_Zopp; nia.
Qed.

(** ** Dictionaries and the in-memory store *)

Lemma dict_lookup_set_eq (d : pydict) (k : string) (v : pyval) :
  dict_lookup (dict_set d k v) k = Some v.
Proof.
  induction d as [| [k' v'] d IH]; simpl.
  - now rewrite String.eqb_refl.
  - destruct (String.eqb k' k) eqn:E; simpl; rewrite E; [reflexivity | exact IH].
Qed.

Lemma dict_lookup_set_ne (d : pydict) (k k' : string) (v : pyval) :
  String.eqb k k' = false ->
  dict_lookup (dict_set d k v) k' = dict_lookup d k'.
Proof.
  intros Hne. induction d as [| [k0 v0] d IH]; simpl.
  - now rewrite Hne.
  - destruct (String.eqb k0 k) eqn:E; simpl.
    + apply String.eqb_eq in E. subst k0. now rewrite Hne.
    + destruct (String.eqb k0 k'); [reflexivity | exact IH].
Qed.

Lemma dict_get_set_eq (d : pydict) (k : string) (v default : pyval) :
  dict_get (dict_set d k v) k default = v.
Proof. unfold dict_get. now rewrite dict_lookup_set_eq. Qed.

Lemma dict_get_set_ne (d : pydict) (k k' : string) (v default : pyval) :
  String.eqb k k' = false ->
  dict_get (dict_set d k v) k' default = dict_get d k' default.
Proof. intros H. unfold dict_get. now rewrite dict_lookup_set_ne. Qed.

(** Reads of a field after a chain of writes. *)
Ltac dict_reads :=
  repeat first
    [ rewrite dict_get_set_eq
    | rewrite dict_get_set_ne by reflexivity ].

Lemma sf_eqb_refl (f : spec_float) : sf_eqb f f = true.
Proof.
  destruct f as [s | s | | s m e]; simpl; try reflexivity;
    rewrite ?Bool.eqb_reflx, ?Pos.eqb_refl, ?Z.eqb_refl; reflexivity.
Qed.

Lemma pyval_eqb_refl : forall a : pyval, pyval_eqb a a = true.
Proof.
  fix pyval_eqb_refl 1.
  intros a. destruct a as [| b | z | f | s | l | d | t]; simpl.
  - reflexivity.
  - apply Bool.eqb_reflx.
  - apply Z.eqb_refl.
  - apply sf_eqb_refl.
  - apply String.eqb_refl.
  - induction l as [| x xs IH]; [reflexivity |].
    rewrite (pyval_eqb_refl x). exact IH.
  - induction d as [| [k x] xs IH]; [reflexivity |].
    rewrite String.eqb_refl, (pyval_eqb_refl x). exact IH.
  - apply Z.eqb_refl.
Qed.

Lemma field_matches_refl (v : pyval) : field_matches v v = true.
Proof. unfold field_matches. now rewrite pyval_eqb_refl. Qed.

Lemma collection_set_collection (name : string) (docs : list pydict)
  (cs : list (string * list pydict)) :
  collection name (set_collection name docs cs) = docs.
Proof.
  induction cs as [| [n old] cs IH]; simpl.
  - now rewrite String.eqb_refl.
  - destruct (String.eqb n name) eqn:E; simpl; rewrite E; [reflexivity | exact IH].
Qed.

Lemma update_first_some (p : pydict -> bool) (f : pydict -> pydict)
  (docs docs' : list pydict) :
  update_first p f docs = Some docs' ->
  (forall d, p (f d) = true) ->
  exists d, find p docs = Some d /\ find p docs' = Some (f d).
Proof.
  intros Hu Hp. revert docs' Hu.
  induction docs as [| d ds IH]; simpl; intros docs' Hu; [discriminate |].
  destruct (p d) eqn:Hd.
  - injection Hu as <-. exists d. simpl. now rewrite Hp.
  - destruct (update_first p f ds) as [ds' |]; [| discriminate].
    injection Hu as <-. simpl. rewrite Hd. now apply IH.
Qed.

Lemma update_first_none (p : pydict -> bool) (f : pydict -> pydict)
  (docs : list pydict) (x : pydict) :
  update_first p f docs = None ->
  p x = true ->
  find p (docs ++ [x]) = Some x.
Proof.
  intros Hu Hx.
  induction docs as [| d ds IH]; simpl in *.
  - now rewrite Hx.
  - destruct (p d); [discriminate |].
    destruct (update_first p f ds); [discriminate |]. now apply IH.
Qed.

(** ** Score derivation *)

Lemma dict_get_lookup (d : pydict) (k : string) (v : pyval) :
  dict_lookup d k = Some v -> forall default, dict_get d k default = v.
Proof. intros H default. unfold dict_get. now rewrite H. Qed.

Lemma dict_index_lookup (d : pydict) (k : string) (v : pyval) :
  dict_lookup d k = Some v -> dict_index d k = Ok v.
Proof. intros H. unfold dict_index. now rewrite H. Qed.

(** The two copies of the score code agree on every result. *)
Lemma score_fallback_incremental (result : pyval) :
  score_fallback result = score_incremental result.
Proof.
  destruct result as [| | | | | | r |]; try reflexivity.
  simpl. destruct (dict_get r "score" PNone) as [| | | | | | sc |]; try reflexivity.
  unfold dict_get, dict_index.
  destruct (dict_lookup sc "scaled") as [v |]; reflexivity.
Qed.

Lemma score_incremental_scaled (r sc : pydict) (v : pyval) :
  dict_get r "score" PNone = PDict sc ->
  dict_lookup sc "scaled" = Some v ->
  score_incremental (PDict r) =
    if is_int_or_float v
    then product <- py_mul_100 v ;; n <- py_int_round product ;; Ok (PInt n)
    else Ok PNone.
Proof.
  intros Hsc Hv. simpl. rewrite Hsc.
  rewrite (dict_get_lookup _ _ _ Hv), (dict_index_lookup _ _ _ Hv).
  reflexivity.
Qed.

Lemma score_incremental_no_scaled (result : pyval) :
  scaled_field result = None -> score_incremental result = Ok PNone.
Proof.
  destruct result as [| | | | | | r |]; try reflexivity.
  simpl. destruct (dict_get r "score" PNone) as [| | | | | | sc |]; try reflexivity.
  intros H. unfold dict_get. now rewrite H.
Qed.

Lemma nearest_self (z : Z) : nearest z (inject_Z z).
Proof.
  unfold nearest, Qle, Qabs, Qminus, Qplus, Qopp, inject_Z. simpl. lia.
Qed.

(** ** Ingestion and the progress update *)

Section Ingestion.

Context {D : Type} {port : StoragePort D}.

(** Whatever the progress update does, [record_statement] answers with the
    id of the inserted statement and leaves the database as the update left
    it. *)
Lemma record_statement_after_insert (statement : Statement) (now : Z)
  (data : pydict) (inserted_id : string) (db db1 db2 : D) (r : exc unit) :
  derive_fields statement now = Ok data ->
  create_document "statement" data db = (Ok inserted_id, db1) ->
  update_progress_from_statement data now db1 = (r, db2) ->
  record_statement statement now db = (Ok [ ("id", PStr inserted_id) ], db2).
Proof.
  intros Hd Hc Hu.
  unfold record_statement, mbind, lift, try_pass, ret.
  rewrite Hd, Hc, Hu. now destruct r.
Qed.

(** The updater returns before touching the database when either identifier
    is falsy. *)
Lemma update_progress_skips (st : pydict) (now : Z) (db : D) :
  truthy (dict_get st "_learner_external_id" PNone) = false
  \/ truthy (dict_get st "_course_id" PNone) = false ->
  update_progress_from_statement st now db = (Ok tt, db).
Proof.
  intros H. unfold update_progress_from_statement.
  destruct H as [H | H]; rewrite H; [| rewrite orb_true_r]; reflexivity.
Qed.

End Ingestion.

(** With a falsy account name the learner id is [mbox or openid]. *)
Lemma actor_account_falls_through (statement : Statement) (now : Z)
  (acct : pydict) (name : pyval) :
  dict_lookup (actor statement) "account" = Some (PDict acct) ->
  dict_lookup acct "name" = Some name ->
  truthy name = false ->
  exists data,
    derive_fields statement now = Ok data
    /\ dict_get data "_learner_external_id" PNone
       = py_or (dict_get (actor statement) "mbox" PNone)
               (dict_get (actor statement) "openid" PNone).
Proof.
  intros Hacct Hname Hfalsy.
  unfold derive_fields, actor_account, activity_id.
  cbn [model_dump dict_set dict_get dict_lookup String.eqb Ascii.eqb Bool.eqb
       py_get py_or_lazy bind].
  rewrite (dict_get_lookup _ _ _ Hacct). cbn [py_get].
  rewrite (dict_get_lookup _ _ _ Hname).
  unfold py_or_lazy, py_or. cbn [bind]. rewrite Hfalsy.
  destruct (truthy (dict_get (actor statement) "mbox" PNone)); eexists; split;
    reflexivity.
Qed.

(** ** What the incremental update stores *)

(** After [update_progress_from_statement] on an identifiable statement,
    the progress record of the pair carries the status, score and success
    derived from that statement alone: nothing of the record that was there
    before is consulted. *)
Lemma update_progress_snapshot (st : pydict) (now : Z) (db : MemDb)
  (score : pyval) :
  let learner := dict_get st "_learner_external_id" PNone in
  let course := dict_get st "_course_id" PNone in
  let result := py_or (dict_get st "result" PNone) (PDict []) in
  truthy learner = true ->
  truthy course = true ->
  score_incremental result = Ok score ->
  exists rec,
    find (doc_matches [ ("learner_external_id", learner); ("course_id", course) ])
         (progress_of (snd (update_progress_from_statement st now db)))
    = Some rec
    /\ triple rec = (status_incremental result, score, success_incremental result)
    /\ dict_get rec "last_statement_timestamp" PNone = dict_get st "timestamp" PNone.
Proof.
  intros learner course result Hl Hc Hs.
  unfold update_progress_from_statement.
  fold learner course result. rewrite Hl, Hc. cbn [negb orb].
  unfold mbind, lift. rewrite Hs. cbn [find_one_and_update mem_port snd].
  unfold upsert, progress_of.
  match goal with
  | |- context [update_first ?p ?f ?docs] =>
      destruct (update_first p f docs) as [docs' |] eqn:Hu
  end.
  - cbn [collections]. rewrite collection_set_collection.
    apply update_first_some in Hu.
    + destruct Hu as [d [_ Hfind]]. eexists. split; [exact Hfind |].
      unfold triple, dict_update. cbn [fold_left fst snd].
      dict_reads. split; reflexivity.
    + intros d. unfold doc_matches, dict_update. cbn [fold_left fst snd forallb].
      dict_reads. now rewrite !field_matches_refl.
  - unfold insert_one. cbn [collections]. rewrite collection_set_collection.
    eexists. split.
    + eapply update_first_none; [exact Hu |].
      unfold doc_matches, dict_update. cbn [fold_left fst snd forallb].
      dict_reads. now rewrite !field_matches_refl.
    + unfold triple, dict_update. cbn [fold_left fst snd].
      dict_reads. split; reflexivity.
Qed.

(** The record the update leaves for the pair does not depend on the
    database it started from. *)
Corollary update_progress_forgets (st : pydict) (now : Z) (db1 db2 : MemDb)
  (score : pyval) :
  let learner := dict_get st "_learner_external_id" PNone in
  let course := dict_get st "_course_id" PNone in
  let result := py_or (dict_get st "result" PNone) (PDict []) in
  truthy learner = true ->
  truthy course = true ->
  score_incremental result = Ok score ->
  exists rec1 rec2,
    find (doc_matches [ ("learner_external_id", learner); ("course_id", course) ])
         (progress_of (snd (update_progress_from_statement st now db1)))
    = Some rec1
    /\ find (doc_matches [ ("learner_external_id", learner); ("course_id", course) ])
            (progress_of (snd (update_progress_from_statement st now db2)))
       = Some rec2
    /\ triple rec1 = triple rec2.
Proof.
  intros learner course result Hl Hc Hs.
  destruct (update_progress_snapshot st now db1 score Hl Hc Hs)
    as [rec1 [H1 [T1 _]]].
  destruct (update_progress_snapshot st now db2 score Hl Hc Hs)
    as [rec2 [H2 [T2 _]]].
  exists rec1, rec2. repeat split; [exact H1 | exact H2 |].
  fold result in T1, T2. now rewrite T1, T2.
Qed.

(** ** What the fallback fold keeps *)

Section FallbackMerge.

Variable py_repr : pyval -> string.

(** An event without a score leaves the record's score as it is. *)
Lemma merge_fallback_keeps_score (rec st : pydict) (result verb : pyval) :
  dict_get (merge_fallback py_repr rec st result PNone verb) "score" PNone
  = dict_get rec "score" PNone.
Proof.
  unfold merge_fallback.
  destruct result as [| | | | | | r |]; dict_reads; try reflexivity.
  destruct (dict_mem r "success"), (completed_fallback py_repr r verb);
    dict_reads; reflexivity.
Qed.

(** An event whose result has no [success] key leaves the record's success
    as it is. *)
Lemma merge_fallback_keeps_success (rec st r : pydict) (score verb : pyval) :
  dict_mem r "success" = false ->
  dict_get (merge_fallback py_repr rec st (PDict r) score verb) "success" PNone
  = dict_get rec "success" PNone.
Proof.
  intros H. unfold merge_fallback. rewrite H.
  destruct score, (completed_fallback py_repr r verb); dict_reads; reflexivity.
Qed.

(** A completed record stays completed. *)
Lemma merge_fallback_stays_completed (rec st : pydict)
  (result score verb : pyval) :
  dict_get rec "status" PNone = PStr "completed" ->
  dict_get (merge_fallback py_repr rec st result score verb) "status" PNone
  = PStr "completed".
Proof.
  intros H. unfold merge_fallback.
  destruct result as [| | | | | | r |], score; dict_reads; try exact H;
    destruct (dict_mem r "success"), (completed_fallback py_repr r verb);
    dict_reads; try exact H; reflexivity.
Qed.

(** In the fallback, a dict result makes the record completed exactly when
    [completion] is truthy or the verb text contains "completed". *)
Lemma merge_fallback_completed (rec st r : pydict) (score verb : pyval) :
  dict_get rec "status" PNone = PStr "in_progress" ->
  dict_get (merge_fallback py_repr rec st (PDict r) score verb) "status" PNone
  = if truthy (dict_get r "completion" PNone)
       || (truthy verb && str_contains "completed" (py_str py_repr verb))
    then PStr "completed" else PStr "in_progress".
Proof.
  intros H. unfold merge_fallback. fold (completed_fallback py_repr r verb).
  destruct score, (dict_mem r "success"), (completed_fallback py_repr r verb);
    dict_reads; try exact H; reflexivity.
Qed.

End FallbackMerge.

(** * The claims *)

(** C1: the two paths on the history [ev2; ev1] (a scored attempt, then an
    attempt without a result). The incremental record ends with no score,
    the fallback fold over the same stored statements keeps 60. *)
Theorem C1_paths_disagree (py_repr : pyval -> string) :
  map triple (progress_of (ingest [ev2; ev1] 0 empty_db))
  = [ (PStr "in_progress", PNone, PNone) ]
  /\ fallback_triples py_repr "u1" (ingest [ev2; ev1] 0 empty_db)
     = Ok [ (PStr "in_progress", PInt 60, PNone) ].
Proof. split; vm_compute; reflexivity. Qed.

(** C2: the record holds score 60, success true and a timestamp; merging an
    event with no score, no success key and no timestamp writes null over
    all three. *)
Theorem C2_update_erases_fields :
  map (fun rec => (dict_get rec "score" PNone, dict_get rec "success" PNone,
                   dict_get rec "last_statement_timestamp" PNone))
      (progress_of (ingest [ev_scored] 0 empty_db))
  = [ (PInt 60, PBool true, PStr "2024-05-01T10:00:00Z") ]
  /\ map (fun rec => (dict_get rec "score" PNone, dict_get rec "success" PNone,
                      dict_get rec "last_statement_timestamp" PNone))
         (progress_of (ingest [ev_scored; ev1] 0 empty_db))
     = [ (PNone, PNone, PNone) ].
Proof. split; vm_compute; reflexivity. Qed.

(** C3: the record is completed; merging a later event that is not
    completing sets its status back to in_progress. *)
Theorem C3_status_regresses :
  map (fun rec => dict_get rec "status" PNone)
      (progress_of (ingest [ev3] 0 empty_db))
  = [ PStr "completed" ]
  /\ map (fun rec => dict_get rec "status" PNone)
         (progress_of (ingest [ev3; ev1] 0 empty_db))
     = [ PStr "in_progress" ].
Proof. split; vm_compute; reflexivity. Qed.

(** C4: the end-to-end scenario. After the three events the one progress
    record of the learner is completed and successful and its score is
    null, not 60, and that is the record [get_progress] returns; the
    fallback fold over the same three stored statements has score 60. *)
Theorem C4_scenario_final_record (py_repr : pyval -> string) :
  map triple (progress_of (ingest [ev1; ev2; ev3] 0 empty_db))
  = [ (PStr "completed", PNone, PBool true) ]
  /\ response_map triple
       (fst (get_progress py_repr "u1" (ingest [ev1; ev2; ev3] 0 empty_db)))
     = Ok [ (PStr "completed", PNone, PBool true) ]
  /\ fallback_triples py_repr "u1" (ingest [ev1; ev2; ev3] 0 empty_db)
     = Ok [ (PStr "completed", PInt 60, PBool true) ].
Proof. repeat split; vm_compute; reflexivity. Qed.

(** C5: an event whose verb display is "completed" and that has no result.
    The incremental derivation records in_progress, the fallback derivation
    of the same stored statement records completed. *)
Theorem C5_incremental_ignores_verb (py_repr : pyval -> string) :
  map triple (progress_of (ingest [ev_completed_verb] 0 empty_db))
  = [ (PStr "in_progress", PNone, PNone) ]
  /\ fallback_triples py_repr "u1" (ingest [ev_completed_verb] 0 empty_db)
     = Ok [ (PStr "completed", PNone, PNone) ].
Proof. split; vm_compute; reflexivity. Qed.

(** C6: extraction on mistyped nested fields. With [actor.account] a string,
    [record_statement] raises [AttributeError] and stores nothing; with
    [verb.display] a string, the statement is stored and the fallback of
    [get_progress] raises [AttributeError]. *)
Theorem C6_extraction_raises (py_repr : pyval -> string) :
  record_statement ev_account_string 0 empty_db = (Raise AttributeError, empty_db)
  /\ fst (record_statement ev_display_string 0 empty_db)
     = Ok [ ("id", PStr "oid1") ]
  /\ fst (get_progress py_repr "u1" (ingest [ev_display_string] 0 empty_db))
     = Raise AttributeError.
Proof. repeat split; vm_compute; reflexivity. Qed.

(** C7: a stored statement with no course id. The incremental path wrote no
    progress record, so [get_progress] falls back; the fallback groups the
    statement under the key [None] and returns a record whose course id is
    null. *)
Theorem C7_fallback_keeps_absent_course (py_repr : pyval -> string) :
  progress_of (ingest [ev_no_course] 0 empty_db) = []
  /\ response_items
       (fst (get_progress py_repr "u1" (ingest [ev_no_course] 0 empty_db)))
     = Ok [ [ ("course_id", PNone);
              ("status", PStr "in_progress");
              ("score", PNone);
              ("success", PNone);
              ("last_statement_timestamp", PNone) ] ].
Proof. split; vm_compute; reflexivity. Qed.

(** C8: a numeric [scaled] that gives no score. The JSON number [1e308] is a
    finite float and passes the [isinstance] test of both derivations; its
    product with 100 overflows to infinity and [round] raises
    [OverflowError] on it, in the incremental and in the fallback
    derivation. Ingestion swallows the exception, so the statement is
    stored and no progress record is written; [get_progress] then falls
    back, replays the statement and raises. *)
Theorem C8_score_overflow_raises (py_repr : pyval -> string) :
  scaled_field (result_with_scaled (PFloat f_1e308)) = Some (PFloat f_1e308)
  /\ is_int_or_float (PFloat f_1e308) = true
  /\ score_incremental (result_with_scaled (PFloat f_1e308)) = Raise OverflowError
  /\ score_fallback (result_with_scaled (PFloat f_1e308)) = Raise OverflowError
  /\ fst (record_statement ev_overflow 0 empty_db) = Ok [ ("id", PStr "oid1") ]
  /\ progress_of (ingest [ev_overflow] 0 empty_db) = []
  /\ fst (get_progress py_repr "u1" (ingest [ev_overflow] 0 empty_db))
     = Raise OverflowError.
Proof. repeat split; vm_compute; reflexivity. Qed.

(** Where the product [scaled * 100], computed as Python computes it, is
    finite, both derivations give the same score: for a numeric [scaled] an
    integer nearest to that product, and no score when [scaled] is absent or
    not numeric. *)
Lemma score_from_scaled_when_finite (result : pyval) :
  product_finite result = true ->
  score_fallback result = score_incremental result
  /\ match scaled_field result with
     | Some v =>
         if is_int_or_float v
         then exists (n : Z) (p : Q),
                product_value v = Some p
                /\ nearest n p
                /\ score_incremental result = Ok (PInt n)
         else score_incremental result = Ok PNone
     | None => score_incremental result = Ok PNone
     end.
Proof.
  intros Hfin. split; [apply score_fallback_incremental |].
  destruct (scaled_field result) as [v |] eqn:Hscaled;
    [| now apply score_incremental_no_scaled].
  unfold product_finite in Hfin. rewrite Hscaled in Hfin.
  destruct result as [| | | | | | r |]; try discriminate.
  simpl in Hscaled.
  destruct (dict_get r "score" PNone) as [| | | | | | sc |] eqn:Hsc;
    try discriminate.
  rewrite (score_incremental_scaled r sc v Hsc Hscaled).
  destruct v as [| b | z | f | | | |]; try reflexivity.
  - exists (Z.b2z b * 100), (inject_Z (Z.b2z b * 100)).
    split; [reflexivity | split; [apply nearest_self | reflexivity]].
  - exists (z * 100), (inject_Z (z * 100)).
    split; [reflexivity | split; [apply nearest_self | reflexivity]].
  - cbn [is_int_or_float py_mul_100 bind py_int_round].
    unfold product_value. cbn [py_mul_100].
    destruct (float_value (f64_mul f (f64_of_Z 100))) as [p |] eqn:Hp;
      [| discriminate].
    destruct (float_round (f64_mul f (f64_of_Z 100))) as [n | e] eqn:Hn.
    + exists n, p.
      split; [reflexivity | split; [| reflexivity]].
      exact (float_round_nearest _ n p Hn Hp).
    + destruct (f64_mul f (f64_of_Z 100)); simpl in *; discriminate.
Qed.

(** The scores of the specification's examples. *)
Example score_of_0_85 :
  score_incremental (result_with_scaled (PFloat f_0_85)) = Ok (PInt 85)
  /\ score_fallback (result_with_scaled (PFloat f_0_85)) = Ok (PInt 85).
Proof. split; vm_compute; reflexivity. Qed.

Example score_of_1_0 :
  score_incremental (result_with_scaled (PFloat f_1_0)) = Ok (PInt 100)
  /\ score_fallback (result_with_scaled (PFloat f_1_0)) = Ok (PInt 100).
Proof. split; vm_compute; reflexivity. Qed.

(** The float literals are the correctly rounded quotients. *)
Example literals_are_nearest :
  f_0_6 = f64_div (f64_of_Z 6) (f64_of_Z 10)
  /\ f_0_85 = f64_div (f64_of_Z 85) (f64_of_Z 100)
  /\ f_1_0 = f64_of_Z 1
  /\ f_1e308 = f64_of_Z (10 ^ 308).
Proof. repeat split; vm_compute; reflexivity. Qed.

(** A tie goes to the even neighbour: [0.5], [1.5], [2.5]. *)
Example ties_to_even :
  float_round (S754_finite false 1 (-1)) = Ok 0
  /\ float_round (S754_finite false 3 (-1)) = Ok 2
  /\ float_round (S754_finite false 5 (-1)) = Ok 2.
Proof. repeat split. Qed.

(** C9: when the progress update raises, whatever the exception,
    [record_statement] still returns the id of the inserted statement. The
    update runs on the database the insertion left, so the statement is
    stored before the update is attempted, and the exception does not reach
    the caller. *)
Theorem C9_ingestion_survives_update_failure {D : Type} {port : StoragePort D}
  (statement : Statement) (now : Z) (data : pydict) (inserted_id : string)
  (db db1 db2 : D) (e : exn) :
  derive_fields statement now = Ok data ->
  create_document "statement" data db = (Ok inserted_id, db1) ->
  update_progress_from_statement data now db1 = (Raise e, db2) ->
  record_statement statement now db = (Ok [ ("id", PStr inserted_id) ], db2).
Proof. apply record_statement_after_insert. Qed.

(** The theorem at the second scenario event, on the database whose progress
    collection is down: the upsert raises, the statement is in the
    collection, and the caller gets its id. *)
Lemma C9_witness :
  derive_fields ev2 0 = Ok data_ev2
  /\ @create_document _ progress_down_port "statement" data_ev2 empty_db
     = (Ok "oid1", insert_one "statement" data_ev2 empty_db)
  /\ @update_progress_from_statement _ progress_down_port data_ev2 0
       (insert_one "statement" data_ev2 empty_db)
     = (Raise (StorageError "progress unavailable"),
        insert_one "statement" data_ev2 empty_db)
  /\ @record_statement _ progress_down_port ev2 0 empty_db
     = (Ok [ ("id", PStr "oid1") ], insert_one "statement" data_ev2 empty_db).
Proof.
  split; [reflexivity |]. split; [reflexivity |]. split; [reflexivity |].
  apply (@C9_ingestion_survives_update_failure _ progress_down_port ev2 0
           data_ev2 "oid1" empty_db
           (insert_one "statement" data_ev2 empty_db)
           (insert_one "statement" data_ev2 empty_db)
           (StorageError "progress unavailable"));
    reflexivity.
Defined.

(** C10: identifiers are tested by truthiness. A present but falsy account
    name makes the learner id [mbox or openid]; and an event whose learner
    id or course id is falsy leaves the database as it was, on every
    storage port. *)
Theorem C10_identifiers_by_truthiness :
  (forall (statement : Statement) (now : Z) (acct : pydict) (name : pyval),
      dict_lookup (actor statement) "account" = Some (PDict acct) ->
      dict_lookup acct "name" = Some name ->
      truthy name = false ->
      exists data,
        derive_fields statement now = Ok data
        /\ dict_get data "_learner_external_id" PNone
           = py_or (dict_get (actor statement) "mbox" PNone)
                   (dict_get (actor statement) "openid" PNone))
  /\ (forall (D : Type) (port : StoragePort D) (st : pydict) (now : Z) (db : D),
         truthy (dict_get st "_learner_external_id" PNone) = false
         \/ truthy (dict_get st "_course_id" PNone) = false ->
         update_progress_from_statement st now db = (Ok tt, db)).
Proof.
  split.
  - apply actor_account_falls_through.
  - intros D port. apply update_progress_skips.
Qed.

(** The theorem at an empty account name and at a statement without a
    course. *)
Lemma C10_witness :
  (exists data,
      derive_fields ev_empty_name 0 = Ok data
      /\ dict_get data "_learner_external_id" PNone
         = PStr "mailto:u2@example.com")
  /\ update_progress_from_statement st_no_course 0 empty_db = (Ok tt, empty_db).
Proof.
  split.
  - exact (proj1 C10_identifiers_by_truthiness ev_empty_name 0
             [ ("name", PStr "") ] (PStr "") eq_refl eq_refl eq_refl).
  - exact (proj2 C10_identifiers_by_truthiness MemDb mem_port st_no_course 0
             empty_db (or_intror eq_refl)).
Defined.

(** * Further properties *)

(** ** Extraction at ingestion *)

Lemma str_contains_slash_cons (c : ascii) (h : string) :
  Ascii.eqb c "/" = false ->
  str_contains "/" (String c h) = str_contains "/" h.
Proof.
  intros Hc.
  change (str_contains "/" (String c h))
    with (if String.prefix "/" (String c h) then true else str_contains "/" h).
  change (String.prefix "/" (String c h))
    with (match ascii_dec "/" c with
          | left _ => String.prefix "" h
          | right _ => false
          end).
  destruct (ascii_dec "/" c) as [<- | _]; [discriminate | reflexivity].
Qed.

Lemma split_segments_no_slash (s x : string) :
  In x (split "/" s) -> str_contains "/" x = false.
Proof.
  revert x. induction s as [| c s IH]; intros x Hin.
  - destruct Hin as [<- | []]. reflexivity.
  - cbn [split] in Hin. destruct (Ascii.eqb c "/") eqn:Hc.
    + destruct Hin as [<- | Hin]; [reflexivity | now apply IH].
    + destruct (split "/" s) as [| h t] eqn:Hs.
      * destruct Hin as [<- | []].
        now rewrite str_contains_slash_cons.
      * destruct Hin as [<- | Hin].
        -- rewrite str_contains_slash_cons by exact Hc. apply IH. now left.
        -- apply IH. now right.
Qed.

Lemma split_nonempty (s : string) : split "/" s <> [].
Proof.
  destruct s as [| c s]; cbn [split]; [discriminate |].
  destruct (Ascii.eqb c "/"); [discriminate |].
  destruct (split "/" s); discriminate.
Qed.

Lemma last_In {A} (l : list A) (d : A) : l <> [] -> In (last l d) l.
Proof.
  induction l as [| a l IH]; [congruence |]. intros _.
  destruct l as [| b l]; [now left |].
  right. apply IH. discriminate.
Qed.

Lemma split_last_no_slash (s : string) :
  str_contains "/" (split_last s) = false.
Proof.
  apply (split_segments_no_slash s). apply last_In, split_nonempty.
Qed.

(** The data [derive_fields] returns, field by field. *)
Lemma derive_fields_ok (statement : Statement) (now : Z) (data : pydict) :
  derive_fields statement now = Ok data ->
  exists account,
    actor_account (dict_set (model_dump statement) "received_at" (PDatetime now))
    = Ok account
    /\ data = (model_dump statement
               ++ [ ("received_at", PDatetime now);
                    ("_learner_external_id", account);
                    ("_course_id",
                     course_of_activity (dict_get (object statement) "id" PNone)) ])%list.
Proof.
  unfold derive_fields, activity_id.
  destruct (actor_account _) as [account | e] eqn:Ha; [| discriminate].
  cbn. intros H. injection H as <-. exists account. split; reflexivity.
Qed.

(** The stored course id: [None], or the last segment, which has no "/". *)
Lemma derive_fields_course_id (statement : Statement) (now : Z)
  (data : pydict) :
  derive_fields statement now = Ok data ->
  match dict_get (object statement) "id" PNone with
  | PStr aid =>
      exists c, dict_get data "_course_id" PNone = PStr c
                /\ c = split_last aid
                /\ str_contains "/" c = false
  | _ => dict_get data "_course_id" PNone = PNone
  end.
Proof.
  intros H. destruct (derive_fields_ok _ _ _ H) as [account [_ ->]].
  cbn. destruct (dict_get (object statement) "id" PNone); try reflexivity.
  eexists. split; [reflexivity | split; [reflexivity | apply split_last_no_slash]].
Qed.

(** X1: the course id [record_statement] stores is [None] when the activity
    id is not a string, and otherwise the last segment of the id, a string
    without any "/" in it. *)
Theorem X1_stored_course_id_has_no_slash (statement : Statement) (now : Z)
  (data : pydict) :
  derive_fields statement now = Ok data ->
  match dict_get (object statement) "id" PNone with
  | PStr aid =>
      exists c, dict_get data "_course_id" PNone = PStr c
                /\ c = split_last aid
                /\ str_contains "/" c = false
  | _ => dict_get data "_course_id" PNone = PNone
  end.
Proof. apply derive_fields_course_id. Qed.

Lemma X1_witness :
  derive_fields ev2 0 = Ok data_ev2
  /\ exists c, dict_get data_ev2 "_course_id" PNone = PStr c
               /\ c = split_last "https://lms.example/courses/c-ethics-101"
               /\ str_contains "/" c = false.
Proof.
  split; [reflexivity |].
  exact (X1_stored_course_id_has_no_slash ev2 0 data_ev2 eq_refl).
Defined.

(** X2: the fallback reads a stored course id back unchanged. For every
    document that carries the [_course_id] ingestion derived, when that id
    is truthy, the course id the fallback groups by is that same id: the
    second split of lines 186-187 changes nothing. *)
Theorem X2_fallback_reads_stored_course_id (statement : Statement) (now : Z)
  (data st : pydict) :
  derive_fields statement now = Ok data ->
  dict_get st "_course_id" PNone = dict_get data "_course_id" PNone ->
  truthy (dict_get data "_course_id" PNone) = true ->
  course_id_fallback st = Ok (dict_get data "_course_id" PNone).
Proof.
  intros Hd Hst Htruthy.
  pose proof (derive_fields_course_id statement now data Hd) as Hc.
  unfold course_id_fallback, py_or_lazy. cbn [bind]. rewrite Hst, Htruthy.
  cbn [bind].
  destruct (dict_get (object statement) "id" PNone);
    try (rewrite Hc in Htruthy; discriminate).
  destruct Hc as [c [-> [_ Hslash]]]. now rewrite Hslash.
Qed.

Lemma X2_witness :
  derive_fields ev2 0 = Ok data_ev2
  /\ dict_get (dict_set data_ev2 "_id" (PStr "oid1")) "_course_id" PNone
     = dict_get data_ev2 "_course_id" PNone
  /\ truthy (dict_get data_ev2 "_course_id" PNone) = true
  /\ course_id_fallback (dict_set data_ev2 "_id" (PStr "oid1"))
     = Ok (PStr "c-ethics-101").
Proof.
  split; [reflexivity |]. split; [reflexivity |]. split; [reflexivity |].
  exact (X2_fallback_reads_stored_course_id ev2 0 data_ev2
           (dict_set data_ev2 "_id" (PStr "oid1")) eq_refl eq_refl eq_refl).
Defined.

(** X3: [record_statement]'s extraction raises exactly on a mistyped
    account. When [actor] has no [account] key, or its [account] is a dict,
    the convenience fields are derived; when [account] is anything else the
    extraction raises [AttributeError]. *)
Theorem X3_extraction_raises_iff_account_mistyped (statement : Statement)
  (now : Z) :
  match dict_lookup (actor statement) "account" with
  | None | Some (PDict _) => exists data, derive_fields statement now = Ok data
  | Some _ => derive_fields statement now = Raise AttributeError
  end.
Proof.
  unfold derive_fields, actor_account, activity_id.
  cbn [model_dump dict_set dict_get dict_lookup String.eqb Ascii.eqb Bool.eqb
       py_get].
  destruct (dict_lookup (actor statement) "account") as [v |] eqn:Hacct.
  - rewrite (dict_get_lookup _ _ _ Hacct).
    destruct v as [| | | | | | d |]; try reflexivity.
    cbn [py_get py_or_lazy bind].
    destruct (truthy (dict_get d "name" PNone)); cbn [bind];
      [eexists; reflexivity |].
    destruct (truthy (dict_get (actor statement) "mbox" PNone)); cbn [bind];
      eexists; reflexivity.
  - unfold dict_get at 1. rewrite Hacct.
    cbn [py_get py_or_lazy bind dict_get dict_lookup truthy].
    destruct (truthy (dict_get (actor statement) "mbox" PNone)); cbn [bind];
      eexists; reflexivity.
Qed.

(** X4: the statement is stored as it was posted. The data handed to the
    database starts with the seven fields of the dump, unchanged and in
    order, followed by exactly [received_at] (the server time),
    [_learner_external_id] and [_course_id]. *)
Theorem X4_statement_stored_as_is (statement : Statement) (now : Z)
  (data : pydict) :
  derive_fields statement now = Ok data ->
  firstn 7 data = model_dump statement
  /\ map fst (skipn 7 data)
     = [ "received_at"; "_learner_external_id"; "_course_id" ]
  /\ dict_get data "received_at" PNone = PDatetime now.
Proof.
  intros H. destruct (derive_fields_ok _ _ _ H) as [account [_ ->]].
  repeat split.
Qed.

Lemma X4_witness :
  derive_fields ev2 0 = Ok data_ev2
  /\ firstn 7 data_ev2 = model_dump ev2
  /\ map fst (skipn 7 data_ev2)
     = [ "received_at"; "_learner_external_id"; "_course_id" ]
  /\ dict_get data_ev2 "received_at" PNone = PDatetime 0.
Proof.
  split; [reflexivity |].
  exact (X4_statement_stored_as_is ev2 0 data_ev2 eq_refl).
Defined.

(** ** Score and schema bounds *)

Lemma nearest_within (n lo hi : Z) (p : Q) :
  nearest n p -> (inject_Z lo <= p)%Q -> (p <= inject_Z hi)%Q -> lo <= n <= hi.
Proof.
  unfold nearest. intros Hn Hlo Hhi.
  apply Qabs_Qle_condition in Hn. destruct Hn as [H1 H2].
  destruct p as [a b].
  unfold Qle, Qminus, Qplus, Qopp, inject_Z in *. cbn [Qnum Qden] in *.
  nia.
Qed.

(** For a numeric [scaled] with a finite product, the score is an integer
    nearest to the product. *)
Lemma score_nearest_product (result v : pyval) (p : Q) :
  scaled_field result = Some v ->
  product_value v = Some p ->
  exists n, score_incremental result = Ok (PInt n) /\ nearest n p.
Proof.
  intros Hscaled Hp.
  destruct result as [| | | | | | r |]; try discriminate.
  cbn [scaled_field] in Hscaled.
  destruct (dict_get r "score" PNone) as [| | | | | | sc |] eqn:Hsc;
    try discriminate.
  rewrite (score_incremental_scaled r sc v Hsc Hscaled).
  unfold product_value in Hp.
  destruct v as [| b | z | f | | | |]; try discriminate;
    cbn [py_mul_100] in Hp.
  - injection Hp as <-. eexists. split; [reflexivity | apply nearest_self].
  - injection Hp as <-. eexists. split; [reflexivity | apply nearest_self].
  - cbn [is_int_or_float py_mul_100 bind py_int_round].
    destruct (float_round (f64_mul f (f64_of_Z 100))) as [n | e] eqn:Hn.
    + exists n. split; [reflexivity |].
      exact (float_round_nearest _ n p Hn Hp).
    + destruct (f64_mul f (f64_of_Z 100)); cbn in *; discriminate.
Qed.

(** X5: the derived score respects the bound of [Progress.score] (0 to 100)
    whenever the product [scaled * 100], as Python computes it, lies between
    0 and 100; this holds in both derivations. *)
Theorem X5_score_within_schema_range (result v : pyval) (p : Q) :
  scaled_field result = Some v ->
  product_value v = Some p ->
  (inject_Z 0 <= p)%Q ->
  (p <= inject_Z 100)%Q ->
  exists n,
    score_incremental result = Ok (PInt n)
    /\ score_fallback result = Ok (PInt n)
    /\ 0 <= n <= 100.
Proof.
  intros Hscaled Hp Hlo Hhi.
  destruct (score_nearest_product result v p Hscaled Hp) as [n [Hn Hnear]].
  exists n. split; [exact Hn |]. split.
  - now rewrite score_fallback_incremental.
  - exact (nearest_within n 0 100 p Hnear Hlo Hhi).
Qed.

Lemma X5_witness :
  scaled_field (result_with_scaled (PFloat f_0_85)) = Some (PFloat f_0_85)
  /\ product_value (PFloat f_0_85) = Some (5981343255101440 # 70368744177664)
  /\ exists n,
       score_incremental (result_with_scaled (PFloat f_0_85)) = Ok (PInt n)
       /\ score_fallback (result_with_scaled (PFloat f_0_85)) = Ok (PInt n)
       /\ 0 <= n <= 100.
Proof.
  split; [reflexivity |]. split; [reflexivity |].
  apply (X5_score_within_schema_range (result_with_scaled (PFloat f_0_85))
           (PFloat f_0_85) (5981343255101440 # 70368744177664));
    [reflexivity | reflexivity | discriminate | discriminate].
Defined.

(** ** The fallback fold *)

Section FallbackFold.

Import Replay.

Variable py_repr : pyval -> string.

(** What a successful iteration of the loop did. *)
Lemma fallback_step_inv (c c' : computed_t) (st : pydict) :
  fallback_step py_repr c st = Ok c' ->
  exists k,
    course_id_fallback st = Ok k
    /\ hashable k = true
    /\ verb_fallback st = Ok (st_verb st)
    /\ score_fallback (result_of st) = Ok (st_score st)
    /\ c' = computed_store c k
              (step_record py_repr
                 (match computed_lookup c k with
                  | Some r => r
                  | None => default_record k st
                  end) st).
Proof.
  unfold fallback_step, step_record, st_score, st_verb, result_of, setdefault.
  destruct (course_id_fallback st) as [k | e]; [| discriminate].
  destruct (verb_fallback st) as [v | e]; [| discriminate].
  cbn [bind].
  destruct (score_fallback _) as [s | e]; [| discriminate].
  cbn [bind].
  destruct (hashable k) eqn:Hh; [| discriminate].
  intros H. exists k. repeat split; try reflexivity; try exact Hh.
  destruct (computed_lookup c k); cbn [bind] in H; injection H as <-; reflexivity.
Qed.

(** Whether an iteration raises does not depend on the records so far. *)
Lemma fallback_step_raises (c1 c2 : computed_t) (st : pydict) (e : exn) :
  fallback_step py_repr c1 st = Raise e ->
  fallback_step py_repr c2 st = Raise e.
Proof.
  unfold fallback_step, setdefault.
  destruct (course_id_fallback st) as [k | e1]; [| trivial].
  destruct (verb_fallback st) as [v | e1]; [| trivial].
  cbn [bind].
  destruct (score_fallback _) as [s | e1]; [| trivial].
  cbn [bind].
  destruct (hashable k); [| trivial].
  destruct (computed_lookup c1 k); discriminate.
Qed.

Lemma score_fallback_value (result s : pyval) :
  score_fallback result = Ok s -> s = PNone \/ exists n, s = PInt n.
Proof.
  destruct result as [| | | | | | r |]; cbn; try (intros H; injection H as <-; now left).
  destruct (dict_get r "score" PNone) as [| | | | | | sc |];
    try (intros H; injection H as <-; now left).
  destruct (is_int_or_float (dict_get sc "scaled" PNone));
    [| intros H; injection H as <-; now left].
  destruct (py_mul_100 _) as [p | e]; [| discriminate]. cbn [bind].
  destruct (py_int_round p) as [n | e]; [| discriminate]. cbn [bind].
  intros H. injection H as <-. right. now exists n.
Qed.

Lemma st_score_value (st : pydict) :
  st_score st = PNone \/ exists n, st_score st = PInt n.
Proof.
  unfold st_score.
  destruct (score_fallback (result_of st)) as [s | e] eqn:H; [| now left].
  exact (score_fallback_value _ _ H).
Qed.

(** A record with the five fields is the list of its five values. *)
Lemma five_fields (rec : pydict) :
  map fst rec
  = [ "course_id"; "status"; "score"; "success"; "last_statement_timestamp" ] ->
  exists v1 v2 v3 v4 v5,
    rec = [ ("course_id", v1); ("status", v2); ("score", v3); ("success", v4);
            ("last_statement_timestamp", v5) ].
Proof.
  intros H.
  destruct rec as [| [k1 v1] [| [k2 v2] [| [k3 v3] [| [k4 v4] [| [k5 v5] [| ? ?]]]]]];
    try discriminate.
  cbn in H. injection H as -> -> -> -> ->.
  now exists v1, v2, v3, v4, v5.
Qed.

(** One more statement written into a record of five fields. *)
Lemma step_record_fields (st : pydict) (v1 v2 v3 v4 v5 : pyval) :
  step_record py_repr
    [ ("course_id", v1); ("status", v2); ("score", v3); ("success", v4);
      ("last_statement_timestamp", v5) ] st
  = [ ("course_id", v1);
      ("status", if st_completes py_repr st then PStr "completed" else v2);
      ("score", if st_has_score st then st_score st else v3);
      ("success", if st_has_success st then st_success st else v4);
      ("last_statement_timestamp",
       if st_has_timestamp st then st_timestamp st else v5) ].
Proof.
  unfold step_record, merge_fallback, st_completes, st_has_score,
    st_has_success, st_success, st_has_timestamp, st_timestamp, py_or.
  cbn [dict_get dict_lookup dict_set String.eqb Ascii.eqb Bool.eqb].
  destruct (truthy (dict_get st "timestamp" PNone));
    destruct (st_score_value st) as [-> | [n ->]];
    cbn [dict_get dict_lookup dict_set String.eqb Ascii.eqb Bool.eqb];
    destruct (result_of st) as [| | | | | | r |]; try reflexivity;
    destruct (dict_mem r "success");
    cbn [dict_get dict_lookup dict_set String.eqb Ascii.eqb Bool.eqb];
    destruct (completed_fallback py_repr r (st_verb st)); reflexivity.
Qed.

Lemma step_record_shape (rec st : pydict) :
  fallback_record_shape rec -> fallback_record_shape (step_record py_repr rec st).
Proof.
  intros [Hkeys [Hstatus [Hscore Hsuccess]]].
  destruct (five_fields rec Hkeys) as [v1 [v2 [v3 [v4 [v5 ->]]]]].
  rewrite step_record_fields. cbn in Hstatus, Hscore, Hsuccess.
  split; [reflexivity |]. cbn. repeat split.
  - destruct (st_completes py_repr st); [now right | exact Hstatus].
  - unfold st_has_score.
    destruct (st_score_value st) as [-> | [n ->]]; [exact Hscore |].
    right. now exists n.
  - unfold st_has_success, st_success.
    destruct (result_of st) as [| | | | | | r |]; try exact Hsuccess.
    destruct (dict_mem r "success"); [| exact Hsuccess].
    right. eexists. reflexivity.
Qed.

Lemma step_record_course_id (rec st : pydict) :
  fallback_record_shape rec ->
  dict_get (step_record py_repr rec st) "course_id" PNone
  = dict_get rec "course_id" PNone.
Proof.
  intros [Hkeys _].
  destruct (five_fields rec Hkeys) as [v1 [v2 [v3 [v4 [v5 ->]]]]].
  now rewrite step_record_fields.
Qed.

Lemma default_record_shape (k : pyval) (st : pydict) :
  fallback_record_shape (default_record k st).
Proof. repeat split; now left. Qed.

(** The loop's write, on the record [setdefault] returned, keeps the
    entries well-shaped. *)
Lemma store_step_ok (c : computed_t) (k : pyval) (st : pydict) :
  computed_ok c ->
  computed_ok
    (computed_store c k
       (step_record py_repr
          (match computed_lookup c k with
           | Some r => r
           | None => default_record k st
           end) st)).
Proof.
  unfold computed_ok. induction c as [| [k' r'] c IH]; intros Hc.
  - cbn [computed_lookup computed_store]. constructor; [| constructor].
    cbn [fst snd]. split.
    + apply step_record_shape, default_record_shape.
    + rewrite step_record_course_id by apply default_record_shape. reflexivity.
  - inversion Hc as [| ? ? [Hshape Hcid] Hrest]; subst.
    cbn [computed_lookup computed_store]. destruct (key_eqb k' k).
    + constructor; [| exact Hrest]. cbn [fst snd] in *. split.
      * now apply step_record_shape.
      * now rewrite step_record_course_id.
    + constructor; [now split | now apply IH].
Qed.

(** The keys after a write: the same, or one new key at the end that no
    earlier key equals. *)
Lemma store_keys (c : computed_t) (k : pyval) (r : pydict) :
  map fst (computed_store c k r) = map fst c
  \/ (map fst (computed_store c k r) = (map fst c ++ [k])%list
      /\ Forall (fun k' => key_eqb k' k = false) (map fst c)).
Proof.
  induction c as [| [k' r'] c IH]; cbn [computed_store map fst].
  - right. split; [reflexivity | constructor].
  - destruct (key_eqb k' k) eqn:Hk; cbn [map fst]; [now left |].
    destruct IH as [-> | [-> HF]]; [now left |].
    right. split; [reflexivity | now constructor].
Qed.

Lemma distinct_keys_snoc (ks : list pyval) (k : pyval) :
  distinct_keys ks ->
  Forall (fun k' => key_eqb k' k = false) ks ->
  distinct_keys (ks ++ [k]).
Proof.
  induction ks as [| k0 ks IH]; cbn [distinct_keys app]; intros Hd HF.
  - split; [constructor | exact I].
  - destruct Hd as [H0 Hd]. inversion HF as [| ? ? Hk0 HF']; subst.
    split; [| now apply IH].
    apply Forall_app. split; [exact H0 | now constructor].
Qed.

Lemma store_distinct (c : computed_t) (k : pyval) (r : pydict) :
  distinct_keys (map fst c) -> distinct_keys (map fst (computed_store c k r)).
Proof.
  intros Hd. destruct (store_keys c k r) as [-> | [-> HF]]; [exact Hd |].
  now apply distinct_keys_snoc.
Qed.

Lemma store_length (c : computed_t) (k : pyval) (r : pydict) :
  (1 <= List.length (computed_store c k r) <= S (List.length c))%nat
  /\ (List.length c <= List.length (computed_store c k r))%nat.
Proof.
  induction c as [| [k' r'] c IH]; cbn [computed_store List.length]; [lia |].
  destruct (key_eqb k' k); cbn [List.length]; lia.
Qed.

(** What the loop keeps, from any well-formed starting point. *)
Lemma fallback_loop_invariant (sts : list pydict) (c c' : computed_t) :
  fallback_loop py_repr c sts = Ok c' ->
  computed_ok c ->
  distinct_keys (map fst c) ->
  computed_ok c'
  /\ distinct_keys (map fst c')
  /\ (List.length c <= List.length c' <= List.length c + List.length sts)%nat
  /\ (sts <> [] -> c' <> []).
Proof.
  revert c. induction sts as [| st sts IH]; intros c Hloop Hok Hd.
  - cbn in Hloop. injection Hloop as <-. repeat split; try assumption; try lia.
    congruence.
  - cbn [fallback_loop] in Hloop.
    destruct (fallback_step py_repr c st) as [c1 |] eqn:Hstep; [| discriminate].
    cbn [bind] in Hloop.
    destruct (fallback_step_inv c c1 st Hstep) as [k [_ [_ [_ [_ ->]]]]].
    pose proof (store_length c k
                  (step_record py_repr
                     (match computed_lookup c k with
                      | Some r => r
                      | None => default_record k st
                      end) st)) as [Hlen1 Hlen2].
    destruct (IH _ Hloop (store_step_ok c k st Hok) (store_distinct c k _ Hd))
      as [Hok' [Hd' [Hlen' _]]].
    repeat split; try assumption; cbn [List.length]; try lia.
    intros _ ->. cbn [List.length] in Hlen'. lia.
Qed.

Lemma computed_ok_course_ids (c : computed_t) :
  computed_ok c ->
  map (fun rec => dict_get rec "course_id" PNone) (map snd c) = map fst c.
Proof.
  unfold computed_ok. induction 1 as [| [k r] c [_ Hcid] _ IH]; [reflexivity |].
  cbn [map fst snd] in *. now rewrite Hcid, IH.
Qed.

Lemma compute_from_statements_inv (sts items : list pydict) :
  compute_from_statements py_repr sts = Ok items ->
  exists c, fallback_loop py_repr [] sts = Ok c /\ items = map snd c.
Proof.
  unfold compute_from_statements.
  destruct (fallback_loop py_repr [] sts) as [c |]; [| discriminate].
  cbn [bind]. intros H. injection H as <-. now exists c.
Qed.

End FallbackFold.

(** X6: every record the fallback returns has exactly the five fields
    [course_id], [status], [score], [success] and
    [last_statement_timestamp], in this order; its status is in_progress or
    completed, its score null or an integer, its success null or a
    boolean. *)
Theorem X6_fallback_records_are_well_shaped (py_repr : pyval -> string)
  (sts items : list pydict) :
  compute_from_statements py_repr sts = Ok items ->
  Forall Replay.fallback_record_shape items.
Proof.
  intros H. destruct (compute_from_statements_inv py_repr sts items H) as [c [Hc ->]].
  destruct (fallback_loop_invariant py_repr sts [] c Hc) as [Hok _];
    [constructor | exact I |].
  unfold Replay.computed_ok in Hok. rewrite Forall_forall in *.
  intros rec Hin. apply in_map_iff in Hin. destruct Hin as [[k r] [<- Hin]].
  exact (proj1 (Hok _ Hin)).
Qed.

(** X7: the fallback returns one record per course id. The course ids of
    the returned records are pairwise different as dict keys, there are
    never more records than statements, and a history that is not empty
    gives at least one record. *)
Theorem X7_fallback_one_record_per_course (py_repr : pyval -> string)
  (sts items : list pydict) :
  compute_from_statements py_repr sts = Ok items ->
  Replay.distinct_keys (map (fun rec => dict_get rec "course_id" PNone) items)
  /\ (List.length items <= List.length sts)%nat
  /\ (sts <> [] -> items <> []).
Proof.
  intros H. destruct (compute_from_statements_inv py_repr sts items H) as [c [Hc ->]].
  destruct (fallback_loop_invariant py_repr sts [] c Hc)
    as [Hok [Hd [Hlen Hne]]]; [constructor | exact I |].
  rewrite (computed_ok_course_ids c Hok), List.length_map.
  repeat split; [exact Hd | cbn in Hlen; lia |].
  intros Hs Hnil. apply (Hne Hs). now destruct c.
Qed.

Lemma X6_witness :
  compute_from_statements Replay.no_repr Replay.history_two_courses
  = Ok [ Replay.record_c_b; Replay.record_c_a ]
  /\ Forall Replay.fallback_record_shape [ Replay.record_c_b; Replay.record_c_a ].
Proof.
  split; [reflexivity |].
  exact (X6_fallback_records_are_well_shaped Replay.no_repr
           Replay.history_two_courses _ eq_refl).
Defined.

Lemma X7_witness :
  compute_from_statements Replay.no_repr Replay.history_two_courses
  = Ok [ Replay.record_c_b; Replay.record_c_a ]
  /\ Replay.distinct_keys [ PStr "c-b"; PStr "c-a" ]
  /\ (List.length [ Replay.record_c_b; Replay.record_c_a ]
      <= List.length Replay.history_two_courses)%nat
  /\ (Replay.history_two_courses <> []
      -> [ Replay.record_c_b; Replay.record_c_a ] <> []).
Proof.
  split; [reflexivity |].
  exact (X7_fallback_one_record_per_course Replay.no_repr
           Replay.history_two_courses _ eq_refl).
Defined.

Section FallbackLookups.

Import Replay.

Variable py_repr : pyval -> string.

Lemma simple_key_eq (k x : pyval) :
  simple_key k = true -> key_eqb x k = true -> x = k.
Proof.
  destruct k, x; cbn; try discriminate; intros _ H; try reflexivity.
  apply String.eqb_eq in H. now subst.
Qed.

Lemma simple_key_refl (k : pyval) : simple_key k = true -> key_eqb k k = true.
Proof.
  destruct k; cbn; try discriminate; intros _; [reflexivity |].
  apply String.eqb_refl.
Qed.

(** Reading the key that was just written. *)
Lemma lookup_store_same (c : computed_t) (k : pyval) (r : pydict) :
  key_eqb k k = true -> computed_lookup (computed_store c k r) k = Some r.
Proof.
  intros Hk. induction c as [| [k' r'] c IH]; cbn [computed_store computed_lookup].
  - now rewrite Hk.
  - destruct (key_eqb k' k) eqn:E; cbn [computed_lookup]; rewrite E;
      [reflexivity | exact IH].
Qed.

(** Reading a string or null key after a write under another key. *)
Lemma lookup_store_other (c : computed_t) (k0 k : pyval) (r : pydict) :
  simple_key k = true ->
  key_eqb k0 k = false ->
  computed_lookup (computed_store c k0 r) k = computed_lookup c k.
Proof.
  intros Hs Hne. induction c as [| [k' r'] c IH];
    cbn [computed_store computed_lookup].
  - now rewrite Hne.
  - destruct (key_eqb k' k0) eqn:E0; cbn [computed_lookup].
    + destruct (key_eqb k' k) eqn:E; [| reflexivity].
      apply (simple_key_eq k k' Hs) in E. subst k'.
      destruct k, k0; cbn in *; try discriminate.
      rewrite String.eqb_sym in Hne. congruence.
    + destruct (key_eqb k' k); [reflexivity | exact IH].
Qed.

(** A record that can be read is still readable after any write: it is the
    same record, or the one just written over it. *)
Lemma lookup_after_store (c : computed_t) (k k2 : pyval) (r r2 : pydict) :
  computed_lookup c k = Some r ->
  exists r',
    computed_lookup (computed_store c k2 r2) k = Some r'
    /\ (r' = r \/ (r' = r2 /\ computed_lookup c k2 = Some r)).
Proof.
  induction c as [| [k' r0] c IH]; cbn [computed_lookup computed_store];
    [discriminate |].
  intros Hk. destruct (key_eqb k' k2) eqn:E2; cbn [computed_lookup].
  - destruct (key_eqb k' k).
    + exists r2. split; [reflexivity | right; now split].
    + exists r. split; [exact Hk | now left].
  - destruct (key_eqb k' k).
    + exists r. split; [exact Hk | now left].
    + exact (IH Hk).
Qed.

Lemma lookup_In (c : computed_t) (k : pyval) (r : pydict) :
  computed_lookup c k = Some r ->
  exists k', In (k', r) c /\ key_eqb k' k = true.
Proof.
  induction c as [| [k' r'] c IH]; cbn [computed_lookup]; [discriminate |].
  destruct (key_eqb k' k) eqn:E.
  - intros H. injection H as <-. exists k'. split; [now left | exact E].
  - intros H. destruct (IH H) as [k'' [Hin Hk]]. exists k''. split;
      [now right | exact Hk].
Qed.

Lemma lookup_none (c : computed_t) (k : pyval) :
  computed_lookup c k = None ->
  forall k' r, In (k', r) c -> key_eqb k' k = false.
Proof.
  induction c as [| [k0 r0] c IH]; cbn [computed_lookup]; [intros _ ? ? [] |].
  destruct (key_eqb k0 k) eqn:E; [discriminate |].
  intros H k' r [Heq | Hin]; [injection Heq as <- <-; exact E | exact (IH H _ _ Hin)].
Qed.

Lemma lookup_distinct (c : computed_t) (k : pyval) (r : pydict) :
  distinct_keys (map fst c) ->
  In (k, r) c ->
  key_eqb k k = true ->
  computed_lookup c k = Some r.
Proof.
  induction c as [| [k0 r0] c IH]; cbn [map fst distinct_keys computed_lookup];
    [intros _ [] |].
  intros [HF Hd] [Heq | Hin] Hk.
  - injection Heq as -> ->. now rewrite Hk.
  - rewrite Forall_forall in HF.
    rewrite (HF k) by (apply in_map_iff; now exists (k, r)).
    now apply IH.
Qed.

Lemma fallback_loop_app (pre post : list pydict) (c c' : computed_t) :
  fallback_loop py_repr c (pre ++ post) = Ok c' ->
  exists c0,
    fallback_loop py_repr c pre = Ok c0 /\ fallback_loop py_repr c0 post = Ok c'.
Proof.
  revert c. induction pre as [| st pre IH]; intros c; cbn [app fallback_loop].
  - intros H. now exists c.
  - destruct (fallback_step py_repr c st) as [c1 |]; [| discriminate].
    cbn [bind]. apply IH.
Qed.

Lemma step_record_completes (rec st : pydict) :
  st_completes py_repr st = true ->
  dict_get (step_record py_repr rec st) "status" PNone = PStr "completed".
Proof.
  unfold st_completes, step_record, merge_fallback.
  destruct (result_of st) as [| | | | | | r |]; try discriminate.
  intros ->. apply dict_get_set_eq.
Qed.

(** A completed record stays completed to the end of the loop. *)
Lemma fallback_loop_keeps_completed (sts : list pydict) (c c' : computed_t)
  (k : pyval) (r : pydict) :
  fallback_loop py_repr c sts = Ok c' ->
  computed_lookup c k = Some r ->
  dict_get r "status" PNone = PStr "completed" ->
  exists r',
    computed_lookup c' k = Some r'
    /\ dict_get r' "status" PNone = PStr "completed".
Proof.
  revert c r. induction sts as [| st sts IH]; intros c r Hloop Hk Hr.
  - cbn in Hloop. injection Hloop as <-. now exists r.
  - cbn [fallback_loop] in Hloop.
    destruct (fallback_step py_repr c st) as [c1 |] eqn:Hstep; [| discriminate].
    cbn [bind] in Hloop.
    destruct (fallback_step_inv py_repr c c1 st Hstep) as [k2 [_ [_ [_ [_ ->]]]]].
    destruct (lookup_after_store c k k2 r
                (step_record py_repr
                   (match computed_lookup c k2 with
                    | Some r => r
                    | None => default_record k2 st
                    end) st) Hk) as [r' [Hr' Hcase]].
    apply (IH _ r' Hloop Hr').
    destruct Hcase as [-> | [-> Hk2]]; [exact Hr |].
    rewrite Hk2. unfold step_record. now apply merge_fallback_stays_completed.
Qed.

(** A statement on which the loop raises makes every run through it
    raise. *)
Lemma fallback_loop_poisoned (sts : list pydict) (st : pydict) (e : exn) :
  In st sts ->
  fallback_step py_repr [] st = Raise e ->
  forall c, exists e', fallback_loop py_repr c sts = Raise e'.
Proof.
  intros Hin Hraise. induction sts as [| s sts IH]; [destruct Hin |].
  intros c. cbn [fallback_loop].
  destruct (fallback_step py_repr c s) as [c1 | e1] eqn:Hstep;
    [| now exists e1].
  cbn [bind]. destruct Hin as [-> | Hin]; [| now apply IH].
  rewrite (fallback_step_raises py_repr [] c st e Hraise) in Hstep. discriminate.
Qed.

End FallbackLookups.

(** X8: completion is sticky in the fallback. If any statement of the
    history signals completion for a course (its result is a dict and
    [completion] is truthy or its verb text contains "completed"), the
    record returned for that course has status completed, whatever the
    later statements of the course say. *)
Theorem X8_fallback_completion_is_sticky (py_repr : pyval -> string)
  (pre post items : list pydict) (st : pydict) (k : pyval) :
  compute_from_statements py_repr (pre ++ st :: post) = Ok items ->
  course_id_fallback st = Ok k ->
  key_eqb k k = true ->
  Replay.st_completes py_repr st = true ->
  exists rec,
    In rec items
    /\ key_eqb (dict_get rec "course_id" PNone) k = true
    /\ dict_get rec "status" PNone = PStr "completed".
Proof.
  intros H Hk Hrefl Hcompletes.
  destruct (compute_from_statements_inv py_repr _ items H) as [c [Hc ->]].
  destruct (fallback_loop_invariant py_repr _ [] c Hc) as [Hok _];
    [constructor | exact I |].
  destruct (fallback_loop_app py_repr pre (st :: post) [] c Hc) as [c0 [_ Hpost]].
  cbn [fallback_loop] in Hpost.
  destruct (fallback_step py_repr c0 st) as [c1 |] eqn:Hstep; [| discriminate].
  cbn [bind] in Hpost.
  destruct (fallback_step_inv py_repr c0 c1 st Hstep) as [k' [Hk' [_ [_ [_ ->]]]]].
  rewrite Hk in Hk'. injection Hk' as <-.
  destruct (fallback_loop_keeps_completed py_repr post _ c k _ Hpost
              (lookup_store_same _ k _ Hrefl)
              (step_record_completes py_repr _ st Hcompletes))
    as [rec [Hrec Hstatus]].
  destruct (lookup_In c k rec Hrec) as [k0 [Hin Hk0]].
  exists rec. split; [| split; [| exact Hstatus]].
  - apply in_map_iff. now exists (k0, rec).
  - unfold Replay.computed_ok in Hok. rewrite Forall_forall in Hok.
    destruct (Hok _ Hin) as [_ Hcid]. cbn [fst snd] in Hcid. now rewrite Hcid.
Qed.

Lemma X8_witness :
  compute_from_statements Replay.no_repr Replay.history_two_courses
  = Ok [ Replay.record_c_b; Replay.record_c_a ]
  /\ exists rec,
       In rec [ Replay.record_c_b; Replay.record_c_a ]
       /\ key_eqb (dict_get rec "course_id" PNone) (PStr "c-a") = true
       /\ dict_get rec "status" PNone = PStr "completed".
Proof.
  split; [reflexivity |].
  exact (X8_fallback_completion_is_sticky Replay.no_repr
           (firstn 1 Replay.history_two_courses)
           (skipn 2 Replay.history_two_courses)
           [ Replay.record_c_b; Replay.record_c_a ]
           [ ("_course_id", PStr "c-a");
             ("result", PDict [ ("completion", PBool true) ]) ]
           (PStr "c-a") eq_refl eq_refl eq_refl eq_refl).
Defined.

(** X9: one stored statement on which the fallback raises (a mistyped
    [verb.display] or [object], an unhashable activity id, a score whose
    product is not finite) makes the whole fallback report of the learner
    raise, wherever the statement stands in the history. *)
Theorem X9_fallback_fails_on_one_bad_statement {D : Type}
  {port : StoragePort D} (py_repr : pyval -> string) (learner : string)
  (db : D) (sts : list pydict) (st : pydict) (e : exn) :
  get_documents "progress" [ ("learner_external_id", PStr learner) ] db = Ok [] ->
  get_documents "statement" [ ("_learner_external_id", PStr learner) ] db = Ok sts ->
  In st sts ->
  fallback_step py_repr [] st = Raise e ->
  exists e', get_progress py_repr learner db = (Raise e', db).
Proof.
  intros Hp Hs Hin Hraise.
  destruct (fallback_loop_poisoned py_repr sts st e Hin Hraise []) as [e' He'].
  exists e'. unfold get_progress, mbind, query, lift, compute_from_statements.
  now rewrite Hp, Hs, He'.
Qed.

(** An activity id that is a list cannot be a key of [computed]. *)
Example fallback_raises_on_unhashable (py_repr : pyval -> string)
  (c : computed_t) :
  fallback_step py_repr c Replay.st_unhashable = Raise TypeError.
Proof. reflexivity. Qed.

Lemma X9_witness :
  exists e',
    get_progress Replay.no_repr "u1" (ingest [ev_display_string] 0 empty_db)
    = (Raise e', ingest [ev_display_string] 0 empty_db).
Proof.
  apply (X9_fallback_fails_on_one_bad_statement Replay.no_repr "u1"
           (ingest [ev_display_string] 0 empty_db)
           (collection "statement"
              (collections (ingest [ev_display_string] 0 empty_db)))
           (hd [] (collection "statement"
                     (collections (ingest [ev_display_string] 0 empty_db))))
           AttributeError);
    [reflexivity | reflexivity | left; reflexivity | reflexivity].
Defined.

Section FallbackClosedForm.

Import Replay.

Variable py_repr : pyval -> string.

Lemma last_where_snoc (p : pydict -> bool) (f : pydict -> pyval)
  (default : pyval) (g : list pydict) (e : pydict) :
  last_where p f default (g ++ [e])
  = if p e then f e else last_where p f default g.
Proof.
  unfold last_where. rewrite rev_app_distr. cbn [rev app find].
  now destruct (p e).
Qed.

Lemma replay_snoc (k : pyval) (o : option pydict) (g : list pydict)
  (e : pydict) :
  replay py_repr k o (g ++ [e])
  = Some (step_record py_repr
            (match replay py_repr k o g with
             | Some r => r
             | None => default_record k e
             end) e).
Proof. unfold replay. now rewrite fold_left_app. Qed.

(** Replaying a group from nothing gives the closed form. *)
Lemma replay_summary (k : pyval) (g : list pydict) :
  replay py_repr k None g = summary py_repr k g.
Proof.
  induction g as [| e g IH] using rev_ind; [reflexivity |].
  rewrite replay_snoc, IH.
  destruct g as [| first g].
  - cbn [summary app existsb]. unfold default_record.
    rewrite step_record_fields. unfold last_where. cbn [rev app find].
    unfold st_timestamp at 1.
    destruct (st_completes py_repr e), (st_has_score e), (st_has_success e),
      (st_has_timestamp e); reflexivity.
  - cbn [summary app]. rewrite step_record_fields.
    change (first :: (g ++ [e])%list) with ((first :: g) ++ [e])%list.
    rewrite existsb_app, !last_where_snoc. cbn [existsb].
    rewrite orb_false_r.
    destruct (st_completes py_repr first || existsb (st_completes py_repr) g),
      (st_completes py_repr e); reflexivity.
Qed.

(** The record read under a string or null key after the loop is the
    replay of the statements of that key, from the record read before. *)
Lemma fallback_loop_lookup (k : pyval) (sts : list pydict)
  (c c' : computed_t) :
  simple_key k = true ->
  fallback_loop py_repr c sts = Ok c' ->
  computed_lookup c' k
  = replay py_repr k (computed_lookup c k) (filter (in_group k) sts).
Proof.
  intros Hs. revert c. induction sts as [| st sts IH]; intros c Hloop.
  - cbn in Hloop. now injection Hloop as <-.
  - cbn [fallback_loop] in Hloop.
    destruct (fallback_step py_repr c st) as [c1 |] eqn:Hstep; [| discriminate].
    cbn [bind] in Hloop.
    destruct (fallback_step_inv py_repr c c1 st Hstep) as [k0 [Hk0 [_ [_ [_ ->]]]]].
    rewrite (IH _ Hloop). cbn [filter]. unfold in_group at 2. rewrite Hk0.
    destruct (key_eqb k0 k) eqn:E.
    + apply (simple_key_eq k k0 Hs) in E. subst k0.
      rewrite lookup_store_same by now apply simple_key_refl.
      reflexivity.
    + now rewrite lookup_store_other.
Qed.

End FallbackClosedForm.

(** X10: the fallback in closed form. For a course id [k] that is a string
    or null, the returned records with that course id are determined by the
    statements of [k]'s group alone, in arrival order: there is none when
    the group is empty, and otherwise exactly the record whose status is
    completed when some statement of the group completes, whose score and
    success are those of the last statement that carries one, and whose
    timestamp is the last truthy one. *)
Theorem X10_fallback_closed_form (py_repr : pyval -> string)
  (sts items : list pydict) (k : pyval) (rec : pydict) :
  compute_from_statements py_repr sts = Ok items ->
  Replay.simple_key k = true ->
  (In rec items /\ dict_get rec "course_id" PNone = k
   <-> Replay.summary py_repr k (filter (Replay.in_group k) sts) = Some rec).
Proof.
  intros H Hs.
  destruct (compute_from_statements_inv py_repr sts items H) as [c [Hc ->]].
  destruct (fallback_loop_invariant py_repr sts [] c Hc) as [Hok [Hd _]];
    [constructor | exact I |].
  rewrite <- replay_summary.
  pose proof (fallback_loop_lookup py_repr k sts [] c Hs Hc) as Hlookup.
  cbn [computed_lookup] in Hlookup. rewrite <- Hlookup.
  unfold Replay.computed_ok in Hok. rewrite Forall_forall in Hok.
  split.
  - intros [Hin Hcid]. apply in_map_iff in Hin. destruct Hin as [[k' r] [Hr Hin]].
    cbn [snd] in Hr. subst r.
    destruct (Hok _ Hin) as [_ Hk']. cbn [fst snd] in Hk'.
    rewrite Hcid in Hk'. subst k'.
    apply lookup_distinct; [exact Hd | exact Hin | now apply simple_key_refl].
  - intros Hlook. destruct (lookup_In c k rec Hlook) as [k' [Hin Hk']].
    split; [apply in_map_iff; now exists (k', rec) |].
    destruct (Hok _ Hin) as [_ Hcid]. cbn [fst snd] in Hcid. rewrite Hcid.
    exact (simple_key_eq k k' Hs Hk').
Qed.

Lemma X10_witness :
  compute_from_statements Replay.no_repr Replay.history_two_courses
  = Ok [ Replay.record_c_b; Replay.record_c_a ]
  /\ Replay.simple_key (PStr "c-b") = true
  /\ (In Replay.record_c_b [ Replay.record_c_b; Replay.record_c_a ]
      /\ dict_get Replay.record_c_b "course_id" PNone = PStr "c-b"
      <-> Replay.summary Replay.no_repr (PStr "c-b")
            (filter (Replay.in_group (PStr "c-b")) Replay.history_two_courses)
          = Some Replay.record_c_b).
Proof.
  split; [reflexivity |]. split; [reflexivity |].
  exact (X10_fallback_closed_form Replay.no_repr Replay.history_two_courses
           [ Replay.record_c_b; Replay.record_c_a ] (PStr "c-b")
           Replay.record_c_b eq_refl eq_refl).
Defined.

(** The closed form on the example: the summary of the group of c-b is the
    record the fallback returns. *)
Example summary_of_c_b :
  Replay.summary Replay.no_repr (PStr "c-b")
    (filter (Replay.in_group (PStr "c-b")) Replay.history_two_courses)
  = Some Replay.record_c_b.
Proof. reflexivity. Qed.

(** ** The denormalised upsert on the in-memory database *)

Section UpsertEffect.

Import Upsert.

Lemma update_first_split (p : pydict -> bool) (f : pydict -> pydict)
  (docs docs' : list pydict) :
  update_first p f docs = Some docs' ->
  exists pre d post,
    docs = (pre ++ d :: post)%list
    /\ (forall x, In x pre -> p x = false)
    /\ p d = true
    /\ docs' = (pre ++ f d :: post)%list.
Proof.
  revert docs'. induction docs as [| d ds IH]; cbn [update_first];
    intros docs' H; [discriminate |].
  destruct (p d) eqn:Hd.
  - injection H as <-. exists [], d, ds. repeat split; try assumption.
    intros x [].
  - destruct (update_first p f ds) as [ds' |]; [| discriminate].
    injection H as <-.
    destruct (IH ds' eq_refl) as [pre [d0 [post [-> [Hpre [Hd0 ->]]]]]].
    exists (d :: pre), d0, post. repeat split; try assumption.
    intros x [<- | Hx]; [exact Hd | now apply Hpre].
Qed.

Lemma update_first_no_match (p : pydict -> bool) (f : pydict -> pydict)
  (docs : list pydict) :
  update_first p f docs = None -> forall x, In x docs -> p x = false.
Proof.
  induction docs as [| d ds IH]; cbn [update_first]; intros H x; [intros [] |].
  destruct (p d) eqn:Hd; [discriminate |].
  destruct (update_first p f ds); [discriminate |].
  intros [<- | Hx]; [exact Hd | now apply IH].
Qed.

Lemma collection_set_collection_other (name name' : string)
  (docs : list pydict) (cs : list (string * list pydict)) :
  String.eqb name name' = false ->
  collection name' (set_collection name docs cs) = collection name' cs.
Proof.
  intros Hne. induction cs as [| [n old] cs IH]; cbn [set_collection collection].
  - now rewrite Hne.
  - destruct (String.eqb n name) eqn:E; cbn [collection].
    + apply String.eqb_eq in E. subst n. now rewrite Hne.
    + destruct (String.eqb n name'); [reflexivity | exact IH].
Qed.

Lemma dict_get_set (d : pydict) (k k' : string) (v default : pyval) :
  dict_get (dict_set d k v) k' default
  = if String.eqb k k' then v else dict_get d k' default.
Proof.
  destruct (String.eqb k k') eqn:E.
  - apply String.eqb_eq in E. subst k'. apply dict_get_set_eq.
  - now apply dict_get_set_ne.
Qed.

(** The written record still satisfies the filter of its pair. *)
Lemma set_document_matches (st : pydict) (now : Z) (score : pyval)
  (d : pydict) :
  doc_matches (pair_filter st) (dict_update d (set_document st now score)) = true.
Proof.
  unfold doc_matches, pair_filter, set_document, dict_update.
  cbn [fold_left fst snd forallb]. dict_reads.
  now rewrite !field_matches_refl.
Qed.

(** The update, when it reaches the database, is this upsert. *)
Lemma updated_is_upsert (st : pydict) (now : Z) (db : MemDb) (score : pyval) :
  identifiable st = true ->
  score_incremental (py_or (dict_get st "result" PNone) (PDict [])) = Ok score ->
  updated st now db
  = upsert "progress" (pair_filter st) (set_document st now score)
      [ ("created_at", PDatetime now) ] db.
Proof.
  unfold identifiable, updated, update_progress_from_statement.
  intros Hid Hs. apply andb_prop in Hid. destruct Hid as [Hl Hc].
  rewrite Hl, Hc. cbn [negb orb]. unfold mbind, lift. rewrite Hs.
  reflexivity.
Qed.

(** The two cases of the update: the first record of the pair is written
    over in place, or a record is appended when the pair has none. *)
Lemma updated_cases (st : pydict) (now : Z) (db : MemDb) (score : pyval) :
  identifiable st = true ->
  score_incremental (py_or (dict_get st "result" PNone) (PDict [])) = Ok score ->
  (exists pre d post,
      progress_of db = (pre ++ d :: post)%list
      /\ (forall x, In x pre -> doc_matches (pair_filter st) x = false)
      /\ doc_matches (pair_filter st) d = true
      /\ progress_of (updated st now db)
         = (pre ++ dict_update d (set_document st now score) :: post)%list)
  \/ ((forall x, In x (progress_of db) -> doc_matches (pair_filter st) x = false)
      /\ progress_of (updated st now db)
         = (progress_of db ++ [inserted_record st now score db])%list).
Proof.
  intros Hid Hs. rewrite (updated_is_upsert st now db score Hid Hs).
  unfold upsert, progress_of.
  destruct (update_first _ _ (collection "progress" (collections db)))
    as [docs' |] eqn:Hu.
  - left. destruct (update_first_split _ _ _ _ Hu)
      as [pre [d [post [Hdocs [Hpre [Hd ->]]]]]].
    exists pre, d, post. cbn [collections].
    rewrite collection_set_collection. now repeat split.
  - right. split; [exact (update_first_no_match _ _ _ Hu) |].
    unfold insert_one. cbn [collections].
    now rewrite collection_set_collection.
Qed.

(** The update leaves every other collection as it was. *)
Lemma updated_other_collections (st : pydict) (now : Z) (db : MemDb)
  (name : string) :
  String.eqb "progress" name = false ->
  collection name (collections (updated st now db))
  = collection name (collections db).
Proof.
  intros Hne. unfold updated, update_progress_from_statement.
  destruct (negb _ || negb _); [reflexivity |].
  unfold mbind, lift.
  destruct (score_incremental _) as [score | e]; [| reflexivity].
  cbn [find_one_and_update mem_port snd]. unfold upsert.
  destruct (update_first _ _ _); unfold insert_one; cbn [collections];
    now rewrite collection_set_collection_other.
Qed.

End UpsertEffect.

Section UpsertProperties.

Import Upsert.

Lemma find_split (p : pydict -> bool) (pre post : list pydict) (d : pydict) :
  (forall x, In x pre -> p x = false) ->
  p d = true ->
  find p (pre ++ d :: post) = Some d.
Proof.
  intros Hpre Hd. induction pre as [| x pre IH]; cbn [app find].
  - now rewrite Hd.
  - rewrite (Hpre x) by now left. apply IH. intros y Hy. apply Hpre. now right.
Qed.

Lemma find_no_match (p : pydict -> bool) (docs : list pydict) :
  (forall x, In x docs -> p x = false) -> find p docs = None.
Proof.
  induction docs as [| x docs IH]; [reflexivity |]. intros H. cbn [find].
  rewrite (H x) by now left. apply IH. intros y Hy. apply H. now right.
Qed.

Lemma inserted_record_matches (st : pydict) (now : Z) (score : pyval)
  (db : MemDb) :
  doc_matches (pair_filter st) (inserted_record st now score db) = true.
Proof.
  unfold doc_matches, inserted_record, pair_filter, set_document, dict_update.
  cbn [fold_left fst snd forallb]. dict_reads.
  now rewrite !field_matches_refl.
Qed.

(** The record of the pair after the update, from the one before. *)
Lemma updated_find (st : pydict) (now : Z) (db : MemDb) (score : pyval) :
  identifiable st = true ->
  score_incremental (py_or (dict_get st "result" PNone) (PDict [])) = Ok score ->
  find (doc_matches (pair_filter st)) (progress_of (updated st now db))
  = match find (doc_matches (pair_filter st)) (progress_of db) with
    | Some d => Some (dict_update d (set_document st now score))
    | None => Some (inserted_record st now score db)
    end.
Proof.
  intros Hid Hs.
  destruct (updated_cases st now db score Hid Hs)
    as [[pre [d [post [Hdocs [Hpre [Hd ->]]]]]] | [Hnone ->]].
  - rewrite Hdocs, (find_split _ pre post d Hpre Hd).
    apply find_split; [exact Hpre | apply set_document_matches].
  - rewrite (find_no_match _ _ Hnone).
    induction (progress_of db) as [| x docs IH]; cbn [app find].
    + now rewrite inserted_record_matches.
    + rewrite (Hnone x) by now left. apply IH. intros y Hy. apply Hnone.
      now right.
Qed.

(** Reading a field after [d.update(u)]: the last write of [u] to it, or
    the field of [d]. *)
Lemma dict_get_update (d u : pydict) (k : string) (default : pyval) :
  dict_get (dict_update d u) k default
  = match dict_lookup (rev u) k with
    | Some v => v
    | None => dict_get d k default
    end.
Proof.
  unfold dict_update. induction u as [| [k0 v0] u IH] using rev_ind;
    [reflexivity |].
  rewrite fold_left_app, rev_app_distr. cbn [fold_left fst snd rev app dict_lookup].
  rewrite dict_get_set. destruct (String.eqb k0 k); [reflexivity | exact IH].
Qed.

Lemma dict_get_update_other (d u : pydict) (k : string) (default : pyval) :
  ~ In k (map fst u) ->
  dict_get (dict_update d u) k default = dict_get d k default.
Proof.
  intros Hk. rewrite dict_get_update.
  replace (dict_lookup (rev u) k) with (@None pyval); [reflexivity |].
  symmetry. assert (Hrev : ~ In k (map fst (rev u))).
  { rewrite map_rev, <- in_rev. exact Hk. }
  induction (rev u) as [| [k0 v0] l IH]; [reflexivity |].
  cbn [dict_lookup]. destruct (String.eqb k0 k) eqn:E.
  - apply String.eqb_eq in E. subst k0. exfalso. apply Hrev. now left.
  - apply IH. intros Hin. apply Hrev. now right.
Qed.

End UpsertProperties.

(** A score the driver refuses: [scaled = 1e20] passes the derivation and
    gives the integer [10 ^ 22], which is beyond 8 bytes. *)
Example score_beyond_8_bytes :
  score_incremental (result_with_scaled (PFloat (f64_of_Z (10 ^ 20))))
  = Ok (PInt (10 ^ 22))
  /\ Upsert.storable_score (PInt (10 ^ 22)) = false.
Proof. split; vm_compute; reflexivity. Qed.

(** X11: the denormalised record is a snapshot of the last event. After the
    update for an identifiable statement whose ids are strings, whose
    timestamp is a string or null and whose score derivation gives no score
    or an integer within 8 bytes, the record of the pair carries the status,
    score, success and timestamp derived from that statement alone, whatever
    the database held before. *)
Theorem X11_incremental_record_is_last_event (st : pydict) (now : Z)
  (db : MemDb) (score : pyval) :
  Upsert.identifiable st = true ->
  score_incremental (py_or (dict_get st "result" PNone) (PDict [])) = Ok score ->
  Upsert.plain st score = true ->
  exists rec,
    find (doc_matches (Upsert.pair_filter st))
         (progress_of (Upsert.updated st now db))
    = Some rec
    /\ triple rec
       = (status_incremental (py_or (dict_get st "result" PNone) (PDict [])),
          score,
          success_incremental (py_or (dict_get st "result" PNone) (PDict [])))
    /\ dict_get rec "last_statement_timestamp" PNone
       = dict_get st "timestamp" PNone.
Proof.
  intros Hid Hs Hplain. unfold Upsert.identifiable in Hid.
  apply andb_prop in Hid. destruct Hid as [Hl Hc].
  exact (update_progress_snapshot st now db score Hl Hc Hs).
Qed.

Lemma X11_witness :
  Upsert.identifiable data_ev2 = true
  /\ Upsert.plain data_ev2 (PInt 60) = true
  /\ exists rec,
       find (doc_matches (Upsert.pair_filter data_ev2))
            (progress_of (Upsert.updated data_ev2 5 (ingest [ev3] 0 empty_db)))
       = Some rec
       /\ triple rec = (PStr "in_progress", PInt 60, PNone)
       /\ dict_get rec "last_statement_timestamp" PNone = PNone.
Proof.
  split; [reflexivity |]. split; [reflexivity |].
  exact (X11_incremental_record_is_last_event data_ev2 5
           (ingest [ev3] 0 empty_db) (PInt 60) eq_refl eq_refl eq_refl).
Defined.

(** X12: an update of an existing record writes only the seven [$set]
    fields. For a statement with string ids, a timestamp that is a string
    or null and a score within 8 bytes, the first record of the pair is
    replaced by itself with those fields written over; [updated_at] becomes
    the current time and every other field, [created_at] and [_id] among
    them, keeps its value. *)
Theorem X12_update_keeps_created_at (st : pydict) (now : Z) (db : MemDb)
  (score : pyval) (d : pydict) :
  Upsert.identifiable st = true ->
  score_incremental (py_or (dict_get st "result" PNone) (PDict [])) = Ok score ->
  Upsert.plain st score = true ->
  find (doc_matches (Upsert.pair_filter st)) (progress_of db) = Some d ->
  exists d',
    find (doc_matches (Upsert.pair_filter st))
         (progress_of (Upsert.updated st now db))
    = Some d'
    /\ dict_get d' "updated_at" PNone = PDatetime now
    /\ dict_get d' "created_at" PNone = dict_get d "created_at" PNone
    /\ dict_get d' "_id" PNone = dict_get d "_id" PNone
    /\ forall k,
         ~ In k [ "learner_external_id"; "course_id"; "status"; "score";
                  "success"; "last_statement_timestamp"; "updated_at" ] ->
         dict_get d' k PNone = dict_get d k PNone.
Proof.
  intros Hid Hs Hplain Hd. rewrite (updated_find st now db score Hid Hs), Hd.
  eexists. split; [reflexivity |].
  split; [| split; [| split]].
  - now rewrite dict_get_update.
  - now rewrite dict_get_update.
  - now rewrite dict_get_update.
  - intros k Hk. now apply dict_get_update_other.
Qed.

Lemma X12_witness :
  Upsert.identifiable data_ev2 = true
  /\ Upsert.plain data_ev2 (PInt 60) = true
  /\ exists d',
       find (doc_matches (Upsert.pair_filter data_ev2))
            (progress_of (Upsert.updated data_ev2 5 (ingest [ev3] 0 empty_db)))
       = Some d'
       /\ dict_get d' "updated_at" PNone = PDatetime 5
       /\ dict_get d' "created_at" PNone = PDatetime 0
       /\ dict_get d' "_id" PNone = PStr "oid2"
       /\ forall k,
            ~ In k [ "learner_external_id"; "course_id"; "status"; "score";
                     "success"; "last_statement_timestamp"; "updated_at" ] ->
            dict_get d' k PNone
            = dict_get (hd [] (progress_of (ingest [ev3] 0 empty_db))) k PNone.
Proof.
  split; [reflexivity |]. split; [reflexivity |].
  exact (X12_update_keeps_created_at data_ev2 5 (ingest [ev3] 0 empty_db)
           (PInt 60) (hd [] (progress_of (ingest [ev3] 0 empty_db)))
           eq_refl eq_refl eq_refl eq_refl).
Defined.



Section UpsertCounting.

Import Upsert.

Lemma filter_none (p : pydict -> bool) (docs : list pydict) :
  (forall x, In x docs -> p x = false) -> List.filter p docs = [].
Proof.
  induction docs as [| x docs IH]; [reflexivity |]. intros H. cbn [List.filter].
  rewrite (H x) by now left. apply IH. intros y Hy. apply H. now right.
Qed.

Lemma of_others_split (st : pydict) (pre post : list pydict) (d : pydict) :
  doc_matches (pair_filter st) d = true ->
  of_others st (pre ++ d :: post) = (of_others st pre ++ of_others st post)%list.
Proof.
  intros Hd. unfold of_others. rewrite filter_app. cbn [List.filter].
  now rewrite Hd.
Qed.

Lemma of_pair_split (st : pydict) (pre post : list pydict) (d : pydict) :
  (forall x, In x pre -> doc_matches (pair_filter st) x = false) ->
  doc_matches (pair_filter st) d = true ->
  of_pair st (pre ++ d :: post) = d :: of_pair st post.
Proof.
  intros Hpre Hd. unfold of_pair. rewrite filter_app. cbn [List.filter].
  now rewrite Hd, (filter_none _ pre Hpre).
Qed.

End UpsertCounting.

Section UpsertOthers.

Import Upsert.

(** The records of other pairs are the same after the update. *)
Lemma updated_of_others (st : pydict) (now : Z) (db : MemDb) (score : pyval) :
  identifiable st = true ->
  score_incremental (py_or (dict_get st "result" PNone) (PDict [])) = Ok score ->
  of_others st (progress_of (updated st now db)) = of_others st (progress_of db).
Proof.
  intros Hid Hs.
  destruct (updated_cases st now db score Hid Hs)
    as [[pre [d [post [-> [Hpre [Hd ->]]]]]] | [Hnone ->]].
  - rewrite !of_others_split; [reflexivity | exact Hd |].
    apply set_document_matches.
  - unfold of_others. rewrite filter_app. cbn [List.filter].
    rewrite inserted_record_matches. cbn [negb]. apply app_nil_r.
Qed.

(** The pair keeps its number of records, and has at least one. *)
Lemma updated_of_pair_length (st : pydict) (now : Z) (db : MemDb)
  (score : pyval) :
  identifiable st = true ->
  score_incremental (py_or (dict_get st "result" PNone) (PDict [])) = Ok score ->
  List.length (of_pair st (progress_of (updated st now db)))
  = Nat.max 1 (List.length (of_pair st (progress_of db))).
Proof.
  intros Hid Hs.
  destruct (updated_cases st now db score Hid Hs)
    as [[pre [d [post [-> [Hpre [Hd ->]]]]]] | [Hnone ->]].
  - rewrite !of_pair_split; try assumption; [| apply set_document_matches].
    cbn [List.length]. lia.
  - unfold of_pair. rewrite filter_app, (filter_none _ _ Hnone).
    cbn [List.filter app]. rewrite inserted_record_matches. reflexivity.
Qed.

End UpsertOthers.

(** X14: the update touches one pair only. For a statement with string
    ids, a timestamp that is a string or null and a score within 8 bytes,
    the progress records that do not match the statement's pair are the
    same, in the same order, after the update; the pair has afterwards as
    many records as before and at least one (a second record for a pair is
    never created); and every other collection is unchanged. *)
Theorem X14_update_touches_one_pair (st : pydict) (now : Z) (db : MemDb)
  (score : pyval) :
  Upsert.identifiable st = true ->
  score_incremental (py_or (dict_get st "result" PNone) (PDict [])) = Ok score ->
  Upsert.plain st score = true ->
  Upsert.of_others st (progress_of (Upsert.updated st now db))
  = Upsert.of_others st (progress_of db)
  /\ List.length (Upsert.of_pair st (progress_of (Upsert.updated st now db)))
     = Nat.max 1 (List.length (Upsert.of_pair st (progress_of db)))
  /\ forall name,
       String.eqb "progress" name = false ->
       collection name (collections (Upsert.updated st now db))
       = collection name (collections db).
Proof.
  intros Hid Hs Hplain. split; [| split].
  - exact (updated_of_others st now db score Hid Hs).
  - exact (updated_of_pair_length st now db score Hid Hs).
  - intros name Hne. now apply updated_other_collections.
Qed.

Lemma X14_witness :
  Upsert.identifiable data_ev2 = true
  /\ Upsert.plain data_ev2 (PInt 60) = true
  /\ Upsert.of_others data_ev2
       (progress_of (Upsert.updated data_ev2 5 (ingest [ev3] 0 empty_db)))
     = Upsert.of_others data_ev2 (progress_of (ingest [ev3] 0 empty_db))
  /\ List.length
       (Upsert.of_pair data_ev2
          (progress_of (Upsert.updated data_ev2 5 (ingest [ev3] 0 empty_db))))
     = Nat.max 1
         (List.length
            (Upsert.of_pair data_ev2 (progress_of (ingest [ev3] 0 empty_db))))
  /\ forall name,
       String.eqb "progress" name = false ->
       collection name
         (collections (Upsert.updated data_ev2 5 (ingest [ev3] 0 empty_db)))
       = collection name (collections (ingest [ev3] 0 empty_db)).
Proof.
  split; [reflexivity |]. split; [reflexivity |].
  exact (X14_update_touches_one_pair data_ev2 5 (ingest [ev3] 0 empty_db)
           (PInt 60) eq_refl eq_refl eq_refl).
Defined.

Section UpsertTwice.

Import Upsert.

(** Writing the [$set] document of the same statement a second time changes
    nothing but [updated_at]. *)
Lemma set_document_twice (st : pydict) (now1 now2 : Z) (score : pyval)
  (d1 : pydict) (k : string) :
  (forall k', In k' [ "learner_external_id"; "course_id"; "status"; "score";
                      "success"; "last_statement_timestamp" ] ->
              dict_get d1 k' PNone
              = dict_get (dict_update [] (set_document st now1 score)) k' PNone) ->
  k <> "updated_at" ->
  dict_get (dict_update d1 (set_document st now2 score)) k PNone
  = dict_get d1 k PNone.
Proof.
  intros Hd1 Hk. rewrite dict_get_update.
  unfold set_document. cbn [rev app dict_lookup].
  destruct (String.eqb "updated_at" k) eqn:E0;
    [apply String.eqb_eq in E0; congruence |].
  repeat match goal with
         | |- context [String.eqb ?a k] =>
             let E := fresh "E" in
             destruct (String.eqb a k) eqn:E;
             [ apply String.eqb_eq in E; subst k;
               rewrite Hd1 by (cbn; tauto); reflexivity | ]
         end.
  reflexivity.
Qed.

End UpsertTwice.

(** X15: the update is idempotent up to [updated_at]. For a statement with
    string ids, a timestamp that is a string or null and a score within 8
    bytes, applying the update a second time leaves the progress collection
    with the same number of records, the records of other pairs unchanged,
    and the pair's record equal in every field except [updated_at], which
    takes the time of the second update. *)
Theorem X15_update_is_idempotent (st : pydict) (now1 now2 : Z) (db : MemDb)
  (score : pyval) :
  Upsert.identifiable st = true ->
  score_incremental (py_or (dict_get st "result" PNone) (PDict [])) = Ok score ->
  Upsert.plain st score = true ->
  exists d1 d2,
    find (doc_matches (Upsert.pair_filter st))
         (progress_of (Upsert.updated st now1 db))
    = Some d1
    /\ find (doc_matches (Upsert.pair_filter st))
            (progress_of (Upsert.updated st now2 (Upsert.updated st now1 db)))
       = Some d2
    /\ (forall k, k <> "updated_at" ->
                  dict_get d2 k PNone = dict_get d1 k PNone)
    /\ dict_get d2 "updated_at" PNone = PDatetime now2
    /\ List.length (progress_of (Upsert.updated st now2 (Upsert.updated st now1 db)))
       = List.length (progress_of (Upsert.updated st now1 db))
    /\ Upsert.of_others st
         (progress_of (Upsert.updated st now2 (Upsert.updated st now1 db)))
       = Upsert.of_others st (progress_of (Upsert.updated st now1 db)).
Proof.
  intros Hid Hs Hplain.
  pose proof (updated_find st now1 db score Hid Hs) as H1.
  assert (Hd1 : exists d1,
             find (doc_matches (Upsert.pair_filter st))
                  (progress_of (Upsert.updated st now1 db)) = Some d1
             /\ forall k', In k' [ "learner_external_id"; "course_id"; "status";
                                   "score"; "success";
                                   "last_statement_timestamp" ] ->
                           dict_get d1 k' PNone
                           = dict_get (dict_update []
                                         (Upsert.set_document st now1 score))
                               k' PNone).
  { destruct (find _ (progress_of db)) as [d |]; eexists; (split; [exact H1 |]);
      intros k' Hk'; cbn in Hk';
      repeat (destruct Hk' as [<- | Hk']; [
        unfold Upsert.inserted_record, Upsert.set_document, Upsert.pair_filter,
          dict_update; cbn [fold_left fst snd]; dict_reads; reflexivity |]);
      destruct Hk'. }
  destruct Hd1 as [d1 [Hfind1 Hfields]].
  pose proof (updated_find st now2 (Upsert.updated st now1 db) score Hid Hs) as H2.
  rewrite Hfind1 in H2.
  exists d1, (dict_update d1 (Upsert.set_document st now2 score)).
  split; [exact Hfind1 |]. split; [exact H2 |]. split; [| split; [| split]].
  - intros k Hk. now apply (set_document_twice st now1 now2 score d1 k).
  - now rewrite dict_get_update.
  - destruct (updated_cases st now2 (Upsert.updated st now1 db) score Hid Hs)
      as [[pre [d [post [Hdocs [_ [_ ->]]]]]] | [Hnone _]].
    + rewrite Hdocs, !length_app. reflexivity.
    + rewrite (find_no_match _ _ Hnone) in Hfind1. discriminate.
  - exact (updated_of_others st now2 (Upsert.updated st now1 db) score Hid Hs).
Qed.

Lemma X15_witness :
  Upsert.identifiable data_ev2 = true
  /\ Upsert.plain data_ev2 (PInt 60) = true
  /\ exists d1 d2,
       find (doc_matches (Upsert.pair_filter data_ev2))
            (progress_of (Upsert.updated data_ev2 5 empty_db))
       = Some d1
       /\ find (doc_matches (Upsert.pair_filter data_ev2))
              (progress_of
                 (Upsert.updated data_ev2 9 (Upsert.updated data_ev2 5 empty_db)))
          = Some d2
       /\ (forall k, k <> "updated_at" ->
                     dict_get d2 k PNone = dict_get d1 k PNone)
       /\ dict_get d2 "updated_at" PNone = PDatetime 9
       /\ List.length
            (progress_of
               (Upsert.updated data_ev2 9 (Upsert.updated data_ev2 5 empty_db)))
          = List.length (progress_of (Upsert.updated data_ev2 5 empty_db))
       /\ Upsert.of_others data_ev2
            (progress_of
               (Upsert.updated data_ev2 9 (Upsert.updated data_ev2 5 empty_db)))
          = Upsert.of_others data_ev2
              (progress_of (Upsert.updated data_ev2 5 empty_db)).
Proof.
  split; [reflexivity |]. split; [reflexivity |].
  exact (X15_update_is_idempotent data_ev2 5 9 empty_db (PInt 60)
           eq_refl eq_refl eq_refl).
Defined.

(** ** Ingestion and report on the in-memory database *)

Section IngestThenReport.

Import Upsert.

(** [record_statement] on the in-memory database: the statement is
    inserted, then the update runs. *)
Lemma record_statement_mem (statement : Statement) (now : Z) (db : MemDb)
  (data : pydict) :
  derive_fields statement now = Ok data ->
  record_statement statement now db
  = (Ok [ ("id", PStr (fresh_id db)) ],
     updated data now (insert_one "statement" data db)).
Proof.
  intros Hd. unfold record_statement, mbind, lift, try_pass, ret, updated.
  rewrite Hd. cbn [create_document mem_port].
  now destruct (update_progress_from_statement data now _) as [[] ?].
Qed.

Lemma insert_one_other_collection (name name' : string) (doc : pydict)
  (db : MemDb) :
  String.eqb name name' = false ->
  collection name' (collections (insert_one name doc db))
  = collection name' (collections db).
Proof.
  intros Hne. unfold insert_one. cbn [collections].
  now apply collection_set_collection_other.
Qed.

(** What ingestion hands to the update is a plain call as soon as the
    learner id is a string and the driver can encode the score: the course
    id it derived is a string, and the timestamp is the schema's. *)
Lemma ingested_call_is_plain (statement : Statement) (now : Z) (data : pydict)
  (learner : string) (score : pyval) :
  derive_fields statement now = Ok data ->
  dict_get data "_learner_external_id" PNone = PStr learner ->
  identifiable data = true ->
  storable_score score = true ->
  plain data score = true.
Proof.
  intros Hd Hl Hid Hs. unfold plain. rewrite Hl, Hs.
  unfold identifiable in Hid. apply andb_prop in Hid. destruct Hid as [_ Hc].
  destruct (derive_fields_ok _ _ _ Hd) as [account [_ ->]].
  cbn in Hc |- *.
  unfold course_of_activity in *.
  destruct (dict_get (object statement) "id" PNone); try discriminate.
  now destruct (timestamp statement).
Qed.

(** The record of the pair after the update, with its identifying fields. *)
Lemma updated_record (st : pydict) (now : Z) (db : MemDb) (score : pyval) :
  identifiable st = true ->
  score_incremental (py_or (dict_get st "result" PNone) (PDict [])) = Ok score ->
  exists rec,
    find (doc_matches (pair_filter st)) (progress_of (updated st now db)) = Some rec
    /\ dict_get rec "learner_external_id" PNone
       = dict_get st "_learner_external_id" PNone
    /\ dict_get rec "course_id" PNone = dict_get st "_course_id" PNone
    /\ triple rec
       = (status_incremental (py_or (dict_get st "result" PNone) (PDict [])),
          score,
          success_incremental (py_or (dict_get st "result" PNone) (PDict []))).
Proof.
  intros Hid Hs. rewrite (updated_find st now db score Hid Hs).
  destruct (find _ (progress_of db)) as [d |]; eexists; (split; [reflexivity |]);
    unfold inserted_record, set_document, pair_filter, triple, dict_update;
    cbn [fold_left fst snd]; dict_reads; repeat split.
Qed.

End IngestThenReport.

(** X16: what is ingested is what the report shows. After [record_statement]
    stored a statement and returned its id, when the learner id is the
    string [learner], the course id is truthy and the score derivation
    gives no score or an integer within 8 bytes, [get_progress learner]
    answers from the denormalised records, and its items contain a record
    for that course with the status, score and success of this statement. *)
Theorem X16_report_shows_ingested_event (py_repr : pyval -> string)
  (statement : Statement) (now : Z) (db : MemDb) (data : pydict)
  (learner : string) (score : pyval) (inserted_id : string) :
  derive_fields statement now = Ok data ->
  dict_get data "_learner_external_id" PNone = PStr learner ->
  Upsert.identifiable data = true ->
  score_incremental (py_or (dict_get data "result" PNone) (PDict [])) = Ok score ->
  Upsert.storable_score score = true ->
  fst (record_statement statement now db) = Ok [ ("id", PStr inserted_id) ] ->
  exists items rec,
    get_progress py_repr learner (snd (record_statement statement now db))
    = (Ok [ ("learner_external_id", PStr learner);
            ("items", PList (map PDict items)) ],
       snd (record_statement statement now db))
    /\ In rec items
    /\ dict_get rec "course_id" PNone = dict_get data "_course_id" PNone
    /\ triple rec
       = (status_incremental (py_or (dict_get data "result" PNone) (PDict [])),
          score,
          success_incremental (py_or (dict_get data "result" PNone) (PDict []))).
Proof.
  intros Hd Hlearner Hid Hs Hstorable Hstored.
  rewrite (record_statement_mem statement now db data Hd). cbn [snd].
  set (db2 := Upsert.updated data now (insert_one "statement" data db)).
  destruct (updated_record data now (insert_one "statement" data db) score Hid Hs)
    as [rec [Hfind [Hl [Hc Ht]]]].
  fold db2 in Hfind. apply find_some in Hfind. destruct Hfind as [Hin _].
  assert (Hmatch : doc_matches [ ("learner_external_id", PStr learner) ] rec = true).
  { unfold doc_matches. cbn [forallb fst snd].
    now rewrite Hl, Hlearner, field_matches_refl. }
  assert (Hin' : In rec (List.filter
                           (doc_matches [ ("learner_external_id", PStr learner) ])
                           (progress_of db2))).
  { apply filter_In. now split. }
  unfold get_progress, mbind, query, ret. cbn [get_documents mem_port].
  fold (progress_of db2).
  destruct (List.filter _ (progress_of db2)) as [| p ps] eqn:Hitems;
    [destruct Hin' |].
  eexists. exists (dict_set rec "_id"
                     (PStr (py_str py_repr (dict_get rec "_id" PNone)))).
  split; [reflexivity |]. split; [| split].
  - apply (in_map (fun p => dict_set p "_id"
                              (PStr (py_str py_repr (dict_get p "_id" PNone))))).
    exact Hin'.
  - now rewrite dict_get_set_ne.
  - unfold triple in *. now dict_reads.
Qed.

Lemma X16_witness :
  derive_fields ev2 0 = Ok data_ev2
  /\ Upsert.storable_score (PInt 60) = true
  /\ fst (record_statement ev2 0 empty_db) = Ok [ ("id", PStr "oid1") ]
  /\ exists items rec,
       get_progress Replay.no_repr "u1" (snd (record_statement ev2 0 empty_db))
       = (Ok [ ("learner_external_id", PStr "u1");
               ("items", PList (map PDict items)) ],
          snd (record_statement ev2 0 empty_db))
       /\ In rec items
       /\ dict_get rec "course_id" PNone = PStr "c-ethics-101"
       /\ triple rec = (PStr "in_progress", PInt 60, PNone).
Proof.
  split; [reflexivity |]. split; [reflexivity |]. split; [reflexivity |].
  exact (X16_report_shows_ingested_event Replay.no_repr ev2 0 empty_db data_ev2
           "u1" (PInt 60) "oid1" eq_refl eq_refl eq_refl eq_refl eq_refl
           eq_refl).
Defined.

(** ** The course catalog *)

Section CatalogGeneric.

Context {D : Type} {port : StoragePort D}.

(** A seed never raises, whatever the storage does. *)
Lemma seed_one_ok (c : Catalog.CourseCreate) (db : D) :
  fst (Catalog.seed_one c db) = Ok tt.
Proof.
  unfold Catalog.seed_one, try_pass.
  now destruct (mbind _ _ db) as [[] ?].
Qed.

(** The seeding loop attempts every seed in turn and never raises. *)
Lemma seed_all_run (cs : list Catalog.CourseCreate) (db : D) :
  Catalog.seed_all cs db
  = (Ok tt, fold_left (fun db c => snd (Catalog.seed_one c db)) cs db).
Proof.
  revert db. induction cs as [| c cs IH]; intros db; [reflexivity |].
  cbn [Catalog.seed_all fold_left]. unfold mbind.
  pose proof (seed_one_ok c db) as Hok.
  destruct (Catalog.seed_one c db) as [r db1]. cbn [fst snd] in *. subst r.
  apply IH.
Qed.

End CatalogGeneric.


Section CatalogMem.

Variable py_repr : pyval -> string.

Lemma filter_all (docs : list pydict) :
  List.filter (doc_matches []) docs = docs.
Proof. induction docs as [| d docs IH]; [reflexivity |]. cbn. now rewrite IH. Qed.

Lemma mem_get_all (name : string) (db : MemDb) :
  @get_documents _ mem_port name [] db = Ok (collection name (collections db)).
Proof. cbn [get_documents mem_port]. now rewrite filter_all. Qed.

Lemma insert_one_collection (name : string) (doc : pydict) (db : MemDb) :
  collection name (collections (insert_one name doc db))
  = (collection name (collections db)
     ++ [ dict_set doc "_id" (PStr (fresh_id db)) ])%list.
Proof. unfold insert_one. cbn [collections]. apply collection_set_collection. Qed.

(** On a catalog that is not empty [list_courses] only reads. *)
Lemma list_courses_mem_nonempty (db : MemDb) (d : pydict) (ds : list pydict) :
  collection "course" (collections db) = d :: ds ->
  Catalog.list_courses py_repr db
  = (Ok (map (Catalog.stringify_id py_repr) (d :: ds)), db).
Proof.
  intros H. unfold Catalog.list_courses, mbind, query, ret.
  now rewrite mem_get_all, H.
Qed.

End CatalogMem.

(** X18: the default catalog is seeded once. On a database without courses
    [list_courses] inserts the four default courses and returns them in
    their order; a second call returns the same list and changes
    nothing. *)
Theorem X18_catalog_is_seeded_once (py_repr : pyval -> string) (db : MemDb) :
  collection "course" (collections db) = [] ->
  exists items db',
    Catalog.list_courses py_repr db = (Ok items, db')
    /\ map (fun it => dict_get it "course_id" PNone) items = Catalog.seed_ids
    /\ Catalog.list_courses py_repr db' = (Ok items, db').
Proof.
  intros Hempty.
  set (db' := fold_left (fun db c => insert_one "course" (Catalog.course_dump c) db)
                Catalog.seed db).
  assert (Hdocs : exists d1 d2 d3 d4,
             collection "course" (collections db') = [ d1; d2; d3; d4 ]
             /\ map (fun it => dict_get (Catalog.stringify_id py_repr it)
                                 "course_id" PNone) [ d1; d2; d3; d4 ]
                = Catalog.seed_ids).
  { unfold db', Catalog.seed. cbn [fold_left].
    rewrite !insert_one_collection, Hempty.
    do 4 eexists. split; reflexivity. }
  destruct Hdocs as [d1 [d2 [d3 [d4 [Hdocs Hids]]]]].
  exists (map (Catalog.stringify_id py_repr) [ d1; d2; d3; d4 ]), db'.
  split; [| split].
  - unfold Catalog.list_courses, mbind, query, ret.
    rewrite mem_get_all, Hempty, seed_all_run.
    change (fold_left (fun db c => snd (Catalog.seed_one c db)) Catalog.seed db)
      with db'.
    now rewrite mem_get_all, Hdocs.
  - rewrite map_map. exact Hids.
  - now apply list_courses_mem_nonempty.
Qed.

Lemma X18_witness :
  collection "course" (collections empty_db) = []
  /\ exists items db',
       Catalog.list_courses Replay.no_repr empty_db = (Ok items, db')
       /\ map (fun it => dict_get it "course_id" PNone) items = Catalog.seed_ids
       /\ Catalog.list_courses Replay.no_repr db' = (Ok items, db').
Proof.
  split; [reflexivity |].
  exact (X18_catalog_is_seeded_once Replay.no_repr empty_db eq_refl).
Defined.


(** ** Listing the statements of a learner *)

#[local] Existing Instance Catalog.mem_limited_read.

(** X20: an ingested statement is found again by its learner. After
    [record_statement] stored a statement whose learner id is the non-empty
    string [user], [get_statements] for that user returns the statements the
    user already had followed by the new one, each as it was stored, as
    long as their number is within [limit]; the progress update, whether it
    ran, failed or was skipped, has no part in it. *)
Theorem X20_ingested_statement_is_listed (py_repr : pyval -> string)
  (statement : Statement) (now : Z) (db : MemDb) (data : pydict)
  (user : string) (limit : Z) :
  derive_fields statement now = Ok data ->
  dict_get data "_learner_external_id" PNone = PStr user ->
  user <> "" ->
  (List.length
     (List.filter (doc_matches [ ("_learner_external_id", PStr user) ])
        (collection "statement" (collections db)))
   < Z.to_nat limit)%nat ->
  Catalog.get_statements py_repr (Some user) limit
    (snd (record_statement statement now db))
  = (Ok (map (Catalog.stringify_id py_repr)
           (List.filter (doc_matches [ ("_learner_external_id", PStr user) ])
              (collection "statement" (collections db))
            ++ [ dict_set data "_id" (PStr (fresh_id db)) ])%list),
     snd (record_statement statement now db)).
Proof.
  intros Hd Huser Hne Hlimit.
  rewrite (record_statement_mem statement now db data Hd). cbn [snd].
  unfold Catalog.get_statements, mbind, query, ret.
  assert (Htruthy : truthy (PStr user) = true).
  { cbn [truthy]. destruct (String.eqb user "") eqn:E; [| reflexivity].
    apply String.eqb_eq in E. contradiction. }
  rewrite Htruthy.
  cbn [Catalog.get_documents_limit Catalog.mem_limited_read].
  rewrite (updated_other_collections data now _ "statement" eq_refl).
  rewrite insert_one_collection, filter_app. cbn [List.filter].
  assert (Hmatch : doc_matches [ ("_learner_external_id", PStr user) ]
                     (dict_set data "_id" (PStr (fresh_id db))) = true).
  { unfold doc_matches. cbn [forallb fst snd].
    rewrite dict_get_set_ne by reflexivity.
    now rewrite Huser, field_matches_refl. }
  rewrite Hmatch, firstn_all2; [reflexivity |].
  rewrite length_app. cbn [List.length]. lia.
Qed.

Lemma X20_witness :
  derive_fields ev2 0 = Ok data_ev2
  /\ Catalog.get_statements Replay.no_repr (Some "u1") 50
       (snd (record_statement ev2 0 empty_db))
     = (Ok (map (Catalog.stringify_id Replay.no_repr)
              (List.filter (doc_matches [ ("_learner_external_id", PStr "u1") ])
                 (collection "statement" (collections empty_db))
               ++ [ dict_set data_ev2 "_id" (PStr (fresh_id empty_db)) ])%list),
        snd (record_statement ev2 0 empty_db)).
Proof.
  split; [reflexivity |].
  apply (X20_ingested_statement_is_listed Replay.no_repr ev2 0 empty_db
           data_ev2 "u1" 50 eq_refl eq_refl); [discriminate | cbn; lia].
Defined.

(** ** More on the extraction and on the two paths *)

(** X21: the learner id is the first truthy identifier. When the extraction
    succeeds, the stored learner id is the account name if it is truthy,
    else the mailbox if it is truthy, else the OpenID value as it is; with
    no account, the choice is between the last two. *)
Theorem X21_learner_id_priority (statement : Statement) (now : Z)
  (data : pydict) :
  derive_fields statement now = Ok data ->
  dict_get data "_learner_external_id" PNone
  = match dict_lookup (actor statement) "account" with
    | Some (PDict acct) =>
        py_or (dict_get acct "name" PNone)
          (py_or (dict_get (actor statement) "mbox" PNone)
                 (dict_get (actor statement) "openid" PNone))
    | _ =>
        py_or (dict_get (actor statement) "mbox" PNone)
              (dict_get (actor statement) "openid" PNone)
    end.
Proof.
  intros H. destruct (derive_fields_ok _ _ _ H) as [account [Ha ->]].
  cbn [app model_dump dict_get dict_lookup String.eqb Ascii.eqb Bool.eqb].
  revert Ha. unfold actor_account.
  cbn [model_dump dict_set dict_get dict_lookup String.eqb Ascii.eqb Bool.eqb
       py_get].
  destruct (dict_lookup (actor statement) "account") as [v |] eqn:Hacct.
  - rewrite (dict_get_lookup _ _ _ Hacct).
    destruct v as [| | | | | | acct |]; try discriminate.
    unfold py_or_lazy, py_or. cbn [py_get bind].
    destruct (truthy (dict_get acct "name" PNone)); cbn [bind].
    + intros Ha. now injection Ha.
    + destruct (truthy (dict_get (actor statement) "mbox" PNone));
        intros Ha; now injection Ha.
  - unfold dict_get at 1. rewrite Hacct.
    unfold py_or_lazy, py_or. cbn [py_get bind dict_get dict_lookup truthy].
    destruct (truthy (dict_get (actor statement) "mbox" PNone));
      intros Ha; now injection Ha.
Qed.

Lemma X21_witness :
  exists data,
    derive_fields ev_empty_name 0 = Ok data
    /\ dict_get data "_learner_external_id" PNone = PStr "mailto:u2@example.com".
Proof.
  eexists. split; [reflexivity |].
  exact (X21_learner_id_priority ev_empty_name 0 _ eq_refl).
Defined.

(** X22: on a history of one statement the two paths agree on score and
    success, and on status unless the verb alone signals completion. The
    record the fallback computes from a single statement has the score and
    the success the incremental update derives from it, and the same status
    except when the result has no truthy [completion] and the verb text
    contains "completed": the fallback then says completed, the update
    in_progress. *)
Theorem X22_single_statement_paths (py_repr : pyval -> string)
  (st : pydict) (items : list pydict) :
  compute_from_statements py_repr [ st ] = Ok items ->
  exists rec score,
    items = [ rec ]
    /\ score_incremental (Replay.result_of st) = Ok score
    /\ dict_get rec "score" PNone = score
    /\ dict_get rec "success" PNone
       = success_incremental (Replay.result_of st)
    /\ (dict_get rec "status" PNone = status_incremental (Replay.result_of st)
        \/ (dict_get rec "status" PNone = PStr "completed"
            /\ status_incremental (Replay.result_of st) = PStr "in_progress"
            /\ str_contains "completed" (py_str py_repr (Replay.st_verb st))
               = true)).
Proof.
  intros H.
  destruct (compute_from_statements_inv py_repr _ items H) as [c [Hc ->]].
  cbn [fallback_loop] in Hc.
  destruct (fallback_step py_repr [] st) as [c1 |] eqn:Hstep; [| discriminate].
  cbn [bind] in Hc. injection Hc as <-.
  destruct (fallback_step_inv py_repr [] c1 st Hstep) as [k [_ [_ [_ [Hscore ->]]]]].
  cbn [computed_lookup computed_store map snd].
  unfold Replay.default_record. rewrite step_record_fields.
  exists [ ("course_id", k);
           ("status", if Replay.st_completes py_repr st then PStr "completed"
                      else PStr "in_progress");
           ("score", if Replay.st_has_score st then Replay.st_score st else PNone);
           ("success", if Replay.st_has_success st then Replay.st_success st
                       else PNone);
           ("last_statement_timestamp",
            if Replay.st_has_timestamp st then Replay.st_timestamp st
            else dict_get st "timestamp" PNone) ],
         (Replay.st_score st).
  split; [reflexivity |]. split; [| split; [| split]].
  - now rewrite <- score_fallback_incremental.
  - cbn. unfold Replay.st_has_score. now destruct (Replay.st_score st).
  - cbn. unfold Replay.st_has_success, Replay.st_success, success_incremental.
    destruct (Replay.result_of st) as [| | | | | | r |]; reflexivity.
  - cbn. unfold Replay.st_completes, status_incremental, completed_fallback.
    destruct (Replay.result_of st) as [| | | | | | r |]; try (now left).
    destruct (truthy (dict_get r "completion" PNone)); [now left |].
    cbn [orb].
    destruct (truthy (Replay.st_verb st)); cbn [andb]; [| now left].
    destruct (str_contains "completed" (py_str py_repr (Replay.st_verb st)));
      [right | left]; repeat split.
Qed.

Lemma X22_witness :
  compute_from_statements Replay.no_repr [ Replay.st_completing ]
  = Ok [ Replay.record_completing ]
  /\ exists rec score,
       [ Replay.record_completing ] = [ rec ]
       /\ score_incremental (Replay.result_of Replay.st_completing) = Ok score
       /\ dict_get rec "score" PNone = score
       /\ dict_get rec "success" PNone
          = success_incremental (Replay.result_of Replay.st_completing)
       /\ (dict_get rec "status" PNone
           = status_incremental (Replay.result_of Replay.st_completing)
           \/ (dict_get rec "status" PNone = PStr "completed"
               /\ status_incremental (Replay.result_of Replay.st_completing)
                  = PStr "in_progress"
               /\ str_contains "completed"
                    (py_str Replay.no_repr (Replay.st_verb Replay.st_completing))
                  = true)).
Proof.
  split; [reflexivity |].
  exact (X22_single_statement_paths Replay.no_repr Replay.st_completing
           [ Replay.record_completing ] eq_refl).
Defined.
